(** * lanternlib: the embeddable proxy shim of [lantern.go]

    A shallow embedding of the decision logic of [lantern.go] and the
    properties of its four parts:

    - [Float64], [Int64]: the Go number types the quota translation uses;
    - [Bandwidth]: the body of the loop in [bandwidthUpdates];
    - [Survey]: [extractUrl] and [surveyRequest];
    - [Effects], [Startup]: [Start] and [run], as programs over the calls
      they make to the proxy engine, the clock and the file system.

    Binary64 arithmetic is the one of [Floats.SpecFloat] at precision 53,
    computed on integers; no property of the hardware floats is assumed. *)

From Stdlib Require Import ZArith Lia Bool List Ascii Floats.SpecFloat.
From stdpp Require Import gmap strings.
From Equations Require Import Equations.
Import ListNotations.

Local Open Scope Z_scope.

(** ** 64-bit integers *)

Module Int64.

Definition min_int : Z := - 2 ^ 63.
Definition max_int : Z := 2 ^ 63 - 1.

Definition in_range (z : Z) : bool := (min_int <=? z) && (z <=? max_int).

(** Two's complement wrap-around of Go's [int64] (and [int], 64 bits
    wide on the platforms modelled here). *)
Definition wrap (z : Z) : Z := (z + 2 ^ 63) mod 2 ^ 64 - 2 ^ 63.

Definition sub (x y : Z) : Z := wrap (x - y).
Definition mul (x y : Z) : Z := wrap (x * y).

End Int64.

(** ** Binary64 floating point *)

Module Float64.

(** [float64(z)] of an integer: rounded to nearest, ties to even. *)
Definition of_int (z : Z) : spec_float := binary_normalize 53 1024 z 0 false.

Definition div : spec_float -> spec_float -> spec_float := SFdiv 53 1024.
Definition mul : spec_float -> spec_float -> spec_float := SFmul 53 1024.

(** The integer part of a float, rounded toward zero; none for an
    infinity or a NaN. *)
Definition trunc (f : spec_float) : option Z :=
  match f with
  | S754_zero _ => Some 0
  | S754_finite s m e =>
      let t := if 0 <=? e then Zpos m * 2 ^ e else Zpos m / 2 ^ (- e) in
      Some (if s then - t else t)
  | _ => None
  end.

(** A float with its sign bit set to [s]. *)
Definition with_sign (s : bool) (f : spec_float) : spec_float :=
  match f with
  | S754_zero _ => S754_zero s
  | S754_infinity _ => S754_infinity s
  | S754_nan => S754_nan
  | S754_finite _ m e => S754_finite s m e
  end.

(** [int(f)]. Go leaves the conversion of a value that [int] cannot hold
    to the implementation; the model takes what amd64 produces, the
    smallest integer. *)
Definition to_int (f : spec_float) : Z :=
  match trunc f with
  | Some v => if Int64.in_range v then v else Int64.min_int
  | None => Int64.min_int
  end.

End Float64.

(** ** Values shared by the Go functions *)

Module Go.

(** An [error] value, by its message; [nil] is [None] of [option error]. *)
Definition error : Type := string.

(** How a call ends: it returns, or it panics (a nil pointer is
    dereferenced, a type assertion fails). *)
Inductive outcome (A : Type) : Type :=
| Returned (a : A)
| Panicked.

Arguments Returned {A} a.
Arguments Panicked {A}.

(** A value held in an [interface{}], as far as a [.(string)] assertion
    tells values apart. *)
Inductive iface : Type :=
| StringValue (s : string)
| OtherValue.

End Go.

(** ** Quota samples to bandwidth signals: [bandwidthUpdates] *)

Module Bandwidth.

(** Modelled from the spec: the declaration of [bandwidth.Quota] is in the
    package [bandwidth], outside this repository's sources; the data model
    gives it two [int64] fields. *)
Record Quota : Type := { MiBAllowed : Z; MiBUsed : Z }.

(** A call [user.BandwidthUpdate(percent, remaining)]. *)
Inductive SinkCall : Type :=
| BandwidthUpdate (percent remaining : Z).

(** [int(100 * (float64(used) / float64(allowed)))] *)
Definition percentOf (used allowed : Z) : Z :=
  Float64.to_int
    (Float64.mul (Float64.of_int 100)
       (Float64.div (Float64.of_int used) (Float64.of_int allowed))).

(** One turn of the loop over [bandwidth.Updates]: the call made to the
    sink, or none when the turn ends in [continue]. A nil [*Quota] is
    [None]. *)
Definition quotaSignal (quota : option Quota) : option SinkCall :=
  match quota with
  | None => None
  | Some quota =>
      let allowed := MiBAllowed quota in
      if (allowed <? 0) || (allowed >? 50000000) then None
      else if MiBUsed quota >=? MiBAllowed quota then
        Some (BandwidthUpdate 100 0)
      else
        Some (BandwidthUpdate
                (percentOf (MiBUsed quota) (MiBAllowed quota))
                (Int64.sub (MiBAllowed quota) (MiBUsed quota)))
  end.

(** The loop, on the samples received so far, in channel order: the calls
    made to the sink, in order. *)
Fixpoint bandwidthUpdates (updates : list (option Quota)) : list SinkCall :=
  match updates with
  | [] => []
  | quota :: rest =>
      match quotaSignal quota with
      | Some call => call :: bandwidthUpdates rest
      | None => bandwidthUpdates rest
      end
  end.

End Bandwidth.

(** ** Survey resolution: [extractUrl] and [surveyRequest] *)

Module Survey.
Import Go.

Definition defaultLocale : string := "en-US".

Record SurveyInfo : Type := {
  Enabled : bool;
  Campaign : string;
  Url : string;
  Message : string;
  Thanks : string;
  Button : string
}.

(** [json.RawMessage]: the bytes of one JSON value. *)
Definition RawMessage : Type := string.

(** A [map[string]*json.RawMessage]; a nil pointer, which is what the
    decoder stores for a JSON [null], is [None]. *)
Abbreviation RawMap := (gmap string (option RawMessage)).

(** What the functions write to the log, one constructor per call site. *)
Inductive Log : Type :=
| ErrFetchingSurvey (err : error)
| ErrFetchingFeed (err : error)
| ErrReadingSurvey (err : error)
| ErrParsingSurvey (err : error)
| ErrMissingFromMap
| DbgFoundSurvey (locale url : string)
| DbgUsingDefault (locale : string).

(** What a call does besides returning: it reads the map at a key, it logs. *)
Inductive Event : Type :=
| MapLookup (key : string)
| Logged (entry : Log).

(** The keys at which the map was read, in order. [extractUrl] reads the
    map once per call, so these are the [locale] arguments of the calls. *)
Fixpoint lookups (tr : list Event) : list string :=
  match tr with
  | [] => []
  | MapLookup key :: rest => key :: lookups rest
  | Logged _ :: rest => lookups rest
  end.

(** The result of a resolution: [(url, err)], and what was done. *)
Definition Resolution : Type := outcome (string * option error) * list Event.

(** Number of fallbacks a locale has left. *)
Definition fallbacks (locale : string) : nat :=
  if decide (locale = defaultLocale) then 0%nat else 1%nat.

(** [strings.Replace(s, old, new, -1)] for one-byte [old] and [new]. *)
Fixpoint Replace (s : string) (old new : ascii) : string :=
  match s with
  | EmptyString => EmptyString
  | String c rest =>
      String (if Ascii.eqb c old then new else c) (Replace rest old new)
  end.

(** What the three steps of the HTTP fetch give [surveyRequest]. *)
Inductive Fetched : Type :=
| NewRequestFailed (err : error)
| DoFailed (err : error)
| ReadAllFailed (err : error)
| Body (contents : RawMessage).

(** What [afterStart] does for the host, in order: it starts the loop of
    [bandwidthUpdates] on its own goroutine, and calls the host's
    [AfterStart] and [ShowSurvey]. *)
Inductive AfterStartStep : Type :=
| SpawnBandwidthUpdates
| CallAfterStart
| CallShowSurvey (url : string).

Section Decoder.

(** [json.Unmarshal] at the two types the code decodes into. The decoder
    is the standard library's; the functions are parametric in it. *)
Variable unmarshalSurveyInfo : RawMessage -> error + SurveyInfo.
Variable unmarshalRawMap : RawMessage -> error + RawMap.

Equations? extractUrl (surveys : RawMap) (locale : string) : Resolution
  by wf (fallbacks locale) lt :=
extractUrl surveys locale with surveys !! locale := {
  | Some (Some val) with unmarshalSurveyInfo val := {
      | inl err :=
          (Returned (EmptyString, Some err),
           [MapLookup locale; Logged (ErrParsingSurvey err)]);
      | inr survey :=
          (Returned (Url survey, None),
           [MapLookup locale; Logged (DbgFoundSurvey locale (Url survey))]) };
  | Some None := (Panicked, [MapLookup locale]);
  | None with decide (locale = defaultLocale) := {
      | left _ := (Returned (EmptyString, None), [MapLookup locale]);
      | right _ :=
          let rest := extractUrl surveys defaultLocale in
          (fst rest,
           MapLookup locale :: Logged (DbgUsingDefault locale) :: snd rest) } }.
Proof.
  unfold fallbacks. rewrite decide_True by reflexivity.
  rewrite decide_False by assumption. lia.
Qed.

Definition surveyRequest (fetched : Fetched) (locale : string) : Resolution :=
  match fetched with
  | NewRequestFailed err =>
      (Returned (EmptyString, Some err), [Logged (ErrFetchingSurvey err)])
  | DoFailed err =>
      (Returned (EmptyString, Some err), [Logged (ErrFetchingFeed err)])
  | ReadAllFailed err =>
      (Returned (EmptyString, Some err), [Logged (ErrReadingSurvey err)])
  | Body contents =>
      match unmarshalRawMap contents with
      | inl err =>
          (Returned (EmptyString, Some err), [Logged (ErrParsingSurvey err)])
      | inr surveyResp =>
          match surveyResp !! "survey"%string with
          | Some (Some val) =>
              match unmarshalRawMap val with
              | inl err =>
                  (Returned (EmptyString, Some err),
                   [MapLookup "survey"; MapLookup "survey";
                    Logged (ErrParsingSurvey err)])
              | inr surveys =>
                  let locale := Replace locale "_"%char "-"%char in
                  let rest := extractUrl surveys locale in
                  (fst rest,
                   MapLookup "survey" :: MapLookup "survey" :: snd rest)
              end
          | _ =>
              (Returned (EmptyString, None),
               [MapLookup "survey"; Logged ErrMissingFromMap])
          end
      end
  end.

(** [afterStart]: how it ends and the steps it took. A panic of
    [surveyRequest] goes through it. *)
Definition afterStart (fetched : Fetched) (locale : string)
  : outcome unit * list AfterStartStep :=
  match fst (surveyRequest fetched locale) with
  | Returned (url, err) =>
      match err with
      | None =>
          if decide (url = EmptyString) then
            (Returned tt, [SpawnBandwidthUpdates; CallAfterStart])
          else
            (Returned tt,
             [SpawnBandwidthUpdates; CallAfterStart; CallShowSurvey url])
      | Some _ => (Returned tt, [SpawnBandwidthUpdates; CallAfterStart])
      end
  | Panicked => (Panicked, [SpawnBandwidthUpdates; CallAfterStart])
  end.

End Decoder.

End Survey.

(** Decoders to run examples on; they stand for [json.Unmarshal] on the
    few messages the examples use. *)

Module SurveyExamples.
Import Go Survey.

Definition syntaxError : error := "unexpected end of JSON input".

Definition surveyAt (url : string) : SurveyInfo :=
  {| Enabled := true; Campaign := EmptyString; Url := url;
     Message := EmptyString; Thanks := EmptyString; Button := EmptyString |}.

(** The empty message does not decode; any other stands for a survey with
    the message as its url. *)
Definition unmarshalSurveyInfo (val : RawMessage) : error + SurveyInfo :=
  if decide (val = EmptyString) then inl syntaxError else inr (surveyAt val).

(** [{}] decodes to the empty map, nothing else decodes. *)
Definition unmarshalRawMap (val : RawMessage) : error + RawMap :=
  if decide (val = "{}"%string) then inr ∅ else inl syntaxError.

(** A decoder of two messages: a document whose "survey" value is the
    message [locales], and [locales], a map with one entry for en-US. *)
Definition unmarshalDocument (val : RawMessage) : error + RawMap :=
  if decide (val = "document"%string) then
    inr {[ "survey"%string := Some "locales"%string ]}
  else if decide (val = "locales"%string) then
    inr {[ "en-US"%string := Some "https://example.org/s"%string ]}
  else inl syntaxError.

End SurveyExamples.

(** ** Programs over external calls *)

Module Effects.

Section Programs.

(** [E X] is a call to a collaborator that answers with an [X]. *)
Context {E : Type -> Type}.

(** A program: it returns, or makes a call and goes on with the answer. *)
Inductive prog (R : Type) : Type :=
| Ret (r : R)
| Vis {X : Type} (e : E X) (k : X -> prog R).

Arguments Ret {R} r.
Arguments Vis {R X} e k.

(** A call that was made, with the answer it got. *)
Inductive call : Type :=
| Called {X : Type} (e : E X) (x : X).

(** [runs p tr r]: [p] makes exactly the calls of [tr], in this order,
    gets their answers, and returns [r]. *)
Fixpoint runs {R : Type} (p : prog R) (tr : list call) (r : R) : Prop :=
  match p with
  | Ret r' => tr = [] /\ r = r'
  | Vis e k => exists x tr', tr = Called e x :: tr' /\ runs (k x) tr' r
  end.

(** The collaborators as a state machine on a world [W]. *)
Definition handler (W : Type) : Type := forall X : Type, E X -> W -> X * W.

(** Running a program against given collaborators: the result, the world
    left behind and the calls made. *)
Fixpoint exec {W R : Type} (h : handler W) (p : prog R) (w : W)
  : R * W * list call :=
  match p with
  | Ret r => (r, w, [])
  | Vis e k =>
      let (x, w') := h _ e w in
      let '(r, w'', tr) := exec h (k x) w' in
      (r, w'', Called e x :: tr)
  end.

End Programs.

Arguments prog E R : clear implicits.
Arguments call E : clear implicits.
Arguments handler E W : clear implicits.
Arguments Ret {E R} r.
Arguments Vis {E R X} e k.
Arguments Called {E X} e x.

End Effects.

(** ** Startup coordination: [Start] and [run] *)

Module Startup.
Import Go Effects.

(** *** Durations and clock readings *)

(** [time.Millisecond], in nanoseconds. *)
Definition Millisecond : Z := 1000000.

(** [time.Duration(timeoutMillis) * time.Millisecond] *)
Definition timeoutDuration (timeoutMillis : Z) : Z :=
  Int64.mul timeoutMillis Millisecond.

(** [t.Sub(u)] on clock readings in nanoseconds: the difference, held at
    the largest or smallest [Duration] when it does not fit. *)
Definition Sub (t u : Z) : Z :=
  if t - u >? Int64.max_int then Int64.max_int
  else if t - u <? Int64.min_int then Int64.min_int
  else t - u.

(** *** [Start] *)

Record StartResult : Type := { HTTPAddr : string; SOCKS5Addr : string }.

(** The calls [Start] makes: [appdir.SetHomeDir], the launch of [run]
    under [startOnce], [time.Now], and the two waits of the engine's
    client. A wait answers with the value and whether it arrived in time.
    The [UserConfig] callbacks are only handed on to [run] and are left
    out. *)
Inductive StartCall : Type -> Type :=
| SetHomeDir (configDir : string) : StartCall unit
| StartOnceGoRun (configDir locale : string) : StartCall unit
| TimeNow : StartCall Z
| ClientAddr (timeout : Z) : StartCall (iface * bool)
| ClientSocks5Addr (timeout : Z) : StartCall (iface * bool).

(** The two errors [Start] returns. *)
Definition httpTimeout : error :=
  "HTTP Proxy didn't start within given timeout".
Definition socksTimeout : error :=
  "SOCKS5 Proxy didn't start within given timeout".

Definition Start (configDir locale : string) (timeoutMillis : Z)
  : prog StartCall (outcome (option StartResult * option error)) :=
  Vis (SetHomeDir configDir) (fun _ =>
  Vis (StartOnceGoRun configDir locale) (fun _ =>
  Vis TimeNow (fun start =>
  Vis (ClientAddr (timeoutDuration timeoutMillis)) (fun '(addr, ok) =>
  if negb ok then
    Ret (Returned (None, Some httpTimeout))
  else
    Vis TimeNow (fun now =>
    let elapsed := Sub now start in
    Vis (ClientSocks5Addr (Int64.sub (timeoutDuration timeoutMillis) elapsed))
      (fun '(socksAddr, ok) =>
    if negb ok then
      Ret (Returned (None, Some socksTimeout))
    else
      match addr, socksAddr with
      | StringValue addr, StringValue socksAddr =>
          Ret (Returned
                 (Some {| HTTPAddr := addr; SOCKS5Addr := socksAddr |}, None))
      | _, _ => Ret Panicked
      end)))))).

(** A wait on an address that was made: its allotment, and the answer. *)
Inductive Wait : Type :=
| HTTPWait (timeout : Z) (value : iface) (ok : bool)
| SOCKSWait (timeout : Z) (value : iface) (ok : bool).

Definition waitOf (c : call StartCall) : option Wait :=
  match c with
  | Called e x =>
      match e in StartCall X return X -> option Wait with
      | ClientAddr timeout => fun x => Some (HTTPWait timeout (fst x) (snd x))
      | ClientSocks5Addr timeout =>
          fun x => Some (SOCKSWait timeout (fst x) (snd x))
      | _ => fun _ => None
      end x
  end.

(** The waits among the calls made, in order. *)
Definition waits (tr : list (call StartCall)) : list Wait := omap waitOf tr.

(** *** Calls to [Start] one after the other *)

(** What [startOnce] holds, and the goroutines it launched so far, each
    with the [configDir] and [locale] given to [run]. *)
Record Process : Type := {
  onceDone : bool;
  launched : list (string * string)
}.

(** A process in which [Start] was never called. *)
Definition fresh : Process := {| onceDone := false; launched := [] |}.

(** [startOnce.Do(f)], [f] launching [run(configDir, locale, user)]:
    [f] is called when the gate was never passed, and the gate is shut. *)
Definition onceGoRun (configDir locale : string) (p : Process) : Process :=
  if onceDone p then p
  else {| onceDone := true; launched := launched p ++ [(configDir, locale)] |}.

(** The engine's side of [Start], on a world [W] of its own: the clock
    and the two waits. *)
Record Engine (W : Type) : Type := {
  engineNow : W -> Z * W;
  engineAddr : Z -> W -> (iface * bool) * W;
  engineSocks5Addr : Z -> W -> (iface * bool) * W
}.

Arguments engineNow {W} _ _.
Arguments engineAddr {W} _ _ _.
Arguments engineSocks5Addr {W} _ _ _.

(** The collaborators of [Start] in one process. The directory set by
    [appdir.SetHomeDir] is [appdir]'s own and is not kept. *)
Definition inProcess {W : Type} (engine : Engine W)
  : handler StartCall (Process * W) :=
  fun X e =>
    match e in StartCall X return Process * W -> X * (Process * W) with
    | SetHomeDir _ => fun s => (tt, s)
    | StartOnceGoRun configDir locale =>
        fun s => (tt, (onceGoRun configDir locale (fst s), snd s))
    | TimeNow =>
        fun s => let (t, w) := engineNow engine (snd s) in (t, (fst s, w))
    | ClientAddr timeout =>
        fun s =>
          let (a, w) := engineAddr engine timeout (snd s) in (a, (fst s, w))
    | ClientSocks5Addr timeout =>
        fun s =>
          let (a, w) := engineSocks5Addr engine timeout (snd s) in
          (a, (fst s, w))
    end.

(** What a call that was made does to the process: the launch under
    [startOnce] is the only one that touches it. *)
Definition onProcess (p : Process) (c : call StartCall) : Process :=
  match c with
  | Called e _ =>
      match e with
      | StartOnceGoRun configDir locale => onceGoRun configDir locale p
      | _ => p
      end
  end.

(** The calls [Start(configDir, locale, timeoutMillis, user)] of a list,
    made one after the other in one process: the state left behind. *)
Fixpoint StartAll {W : Type} (engine : Engine W)
    (calls : list (string * string * Z)) (s : Process * W) : Process * W :=
  match calls with
  | [] => s
  | (configDir, locale, timeoutMillis) :: rest =>
      StartAll engine rest
        (snd (fst (exec (inProcess engine)
                     (Start configDir locale timeoutMillis) s)))
  end.

(** *** [run] *)

(** The error numbers [os.MkdirAll] can fail with that the model tells
    apart. *)
Inductive Errno : Type := EEXIST | ENOTEMPTY | EACCES | ENOTDIR | ENOSPC | EROFS.

(** An [*os.PathError]. *)
Record PathError : Type := { Op : string; Path : string; Err : Errno }.

(** [os.IsExist(err)]: the error reports that the file or directory
    exists already. *)
Definition IsExist (err : option PathError) : bool :=
  match err with
  | Some e => match Err e with EEXIST | ENOTEMPTY => true | _ => false end
  | None => false
  end.

(** [strconv.ParseBool] *)
Definition ParseBool (str : string) : option bool :=
  if bool_decide (str ∈ ["1"; "t"; "T"; "TRUE"; "true"; "True"]%string) then Some true
  else if bool_decide (str ∈ ["0"; "f"; "F"; "FALSE"; "false"; "False"]%string) then Some false
  else None.

Inductive RunLog : Type :=
| ErrCreateConfigDir (configDir : string) (err : option PathError)
| ErrEnableFileLogging (err : error)
| DbgWritingLog (configDir : string)
| ErrParsingFlag.

(** The calls [run] makes. *)
Inductive RunCall : Type -> Type :=
| MkdirAll (path : string) (perm : Z) : RunCall (option PathError)
| EnableFileLogging (configDir : string) : RunCall (option error)
| Log (entry : RunLog) : RunCall unit
| FlashlightRun (httpAddr socksAddr configDir : string) (stickyConfig : bool)
    (locale : string) : RunCall unit.

(** [run]; [stagingMode] is the package variable of that name. *)
Definition run (stagingMode configDir locale : string) : prog RunCall unit :=
  Vis (MkdirAll configDir 493) (fun err =>
  if IsExist err then
    Vis (Log (ErrCreateConfigDir configDir err)) (fun _ => Ret tt)
  else
    Vis (EnableFileLogging configDir) (fun err =>
    match err with
    | Some err => Vis (Log (ErrEnableFileLogging err)) (fun _ => Ret tt)
    | None =>
        Vis (Log (DbgWritingLog configDir)) (fun _ =>
        let engine :=
          Vis (FlashlightRun "127.0.0.1:0" "127.0.0.1:0" configDir false locale)
            (fun _ => Ret tt) in
        match ParseBool stagingMode with
        | Some _ => engine
        | None => Vis (Log ErrParsingFlag) (fun _ => engine)
        end)
    end)).

(** The arguments of the calls to [flashlight.Run] among the calls made. *)
Definition engineStartOf (c : call RunCall)
  : option (string * string * string * bool * string) :=
  match c with
  | Called e _ =>
      match e with
      | FlashlightRun httpAddr socksAddr configDir stickyConfig locale =>
          Some (httpAddr, socksAddr, configDir, stickyConfig, locale)
      | _ => None
      end
  end.

Definition engineStarts (tr : list (call RunCall))
  : list (string * string * string * bool * string) :=
  omap engineStartOf tr.

(** The answers of [os.MkdirAll] and of [logging.EnableFileLogging]. *)
Definition mkdirAnswerOf (c : call RunCall) : option (option PathError) :=
  match c with
  | Called e x =>
      match e in RunCall X return X -> option (option PathError) with
      | MkdirAll _ _ => fun x => Some x
      | _ => fun _ => None
      end x
  end.

Definition fileLoggingAnswerOf (c : call RunCall) : option (option error) :=
  match c with
  | Called e x =>
      match e in RunCall X return X -> option (option error) with
      | EnableFileLogging _ => fun x => Some x
      | _ => fun _ => None
      end x
  end.

Definition mkdirAnswers (tr : list (call RunCall)) : list (option PathError) :=
  omap mkdirAnswerOf tr.

Definition fileLoggingAnswers (tr : list (call RunCall))
  : list (option error) :=
  omap fileLoggingAnswerOf tr.

(** Every call but the log entry about the staging flag. *)
Definition notFlagLog (c : call RunCall) : bool :=
  match c with
  | Called e _ =>
      match e with
      | Log ErrParsingFlag => false
      | _ => true
      end
  end.

End Startup.

(** * Properties *)

(** ** Rounding to binary64 *)

Module Float64Facts.

(** The number of binary digits of a mantissa. *)
Lemma digits2_pos_bounds (p : positive) :
  2 ^ (Zpos (digits2_pos p) - 1) <= Zpos p < 2 ^ Zpos (digits2_pos p).
Proof.
  induction p as [p IH | p IH |]; cbn [digits2_pos].
  - rewrite Pos2Z.inj_succ.
    replace (Z.succ (Zpos (digits2_pos p)) - 1) with (Z.succ (Zpos (digits2_pos p) - 1)) by lia.
    rewrite !Z.pow_succ_r by lia. lia.
  - rewrite Pos2Z.inj_succ.
    replace (Z.succ (Zpos (digits2_pos p)) - 1) with (Z.succ (Zpos (digits2_pos p) - 1)) by lia.
    rewrite !Z.pow_succ_r by lia. lia.
  - change (2 ^ (Zpos (digits2_pos 1) - 1)) with 1.
    change (2 ^ Zpos (digits2_pos 1)) with 2. lia.
Qed.

Lemma digits2_pos_unique (p : positive) (d : Z) :
  2 ^ (d - 1) <= Zpos p < 2 ^ d -> Zpos (digits2_pos p) = d.
Proof.
  intros [Hlo Hhi]. pose proof (digits2_pos_bounds p) as [Hlo' Hhi'].
  assert (0 < d).
  { destruct (Z_lt_le_dec 0 d) as [Hd | Hd]; [exact Hd |]. exfalso.
    destruct (Z.eq_dec d 0) as [-> | Hne].
    - change (2 ^ 0) with 1 in Hhi. lia.
    - rewrite Z.pow_neg_r in Hhi by lia. lia. }
  destruct (Z.lt_trichotomy (Zpos (digits2_pos p)) d) as [Hlt | [Heq | Hgt]]; [| exact Heq |].
  - assert (2 ^ Zpos (digits2_pos p) <= 2 ^ (d - 1)) by (apply Z.pow_le_mono_r; lia). lia.
  - assert (2 ^ d <= 2 ^ (Zpos (digits2_pos p) - 1)) by (apply Z.pow_le_mono_r; lia). lia.
Qed.


Lemma Zdigits2_bounds (m d : Z) :
  0 < m -> Zdigits2 m = d -> 2 ^ (d - 1) <= m < 2 ^ d.
Proof.
  intros Hm <-. destruct m as [| p | p]; try lia. apply digits2_pos_bounds.
Qed.

Lemma Zdigits2_unique (m d : Z) :
  2 ^ (d - 1) <= m < 2 ^ d -> 0 < m -> Zdigits2 m = d.
Proof.
  intros H Hm. destruct m as [| p | p]; try lia. now apply digits2_pos_unique.
Qed.

(** Shifting a mantissa to the right drops its low bits. *)
Lemma shr_1_m (mrs : shr_record) :
  0 <= shr_m mrs -> shr_m (shr_1 mrs) = shr_m mrs / 2.
Proof.
  destruct mrs as [m r s]; cbn [shr_m shr_1]; intros Hm.
  destruct m as [| [p | p |] | p]; cbn [shr_m]; try lia.
  all: try reflexivity.
  - rewrite Pos2Z.inj_xI. apply Z.div_unique with (r := 1); lia.
  - rewrite Pos2Z.inj_xO. apply Z.div_unique with (r := 0); lia.
Qed.

Lemma iter_pos_shr_1_m (p : positive) (mrs : shr_record) :
  0 <= shr_m mrs -> shr_m (SpecFloat.iter_pos shr_1 p mrs) = shr_m mrs / 2 ^ Zpos p.
Proof.
  revert mrs.
  assert (Hnn : forall mrs, 0 <= shr_m mrs -> 0 <= shr_m mrs / 2)
    by (intros; apply Z.div_pos; lia).
  induction p as [p IH | p IH |]; intros mrs Hm; cbn [SpecFloat.iter_pos].
  - assert (H1 : 0 <= shr_m (shr_1 mrs)) by (rewrite shr_1_m; auto).
    assert (H2 : 0 <= shr_m (SpecFloat.iter_pos shr_1 p (shr_1 mrs)))
      by (rewrite IH by exact H1; apply Z.div_pos; lia).
    rewrite IH by exact H2. rewrite IH by exact H1. rewrite shr_1_m by exact Hm.
    rewrite !Z.div_div by lia. f_equal.
    rewrite Pos2Z.inj_xI, Z.pow_add_r, Z.pow_mul_r by lia.
    change (2 ^ 2) with 4. change (2 ^ 1) with 2.
    replace (4 ^ Zpos p) with (2 ^ Zpos p * 2 ^ Zpos p); [ring |].
    rewrite <- Z.pow_add_r by lia. replace (Zpos p + Zpos p) with (2 * Zpos p) by lia.
    now rewrite Z.pow_mul_r by lia.
  - assert (H2 : 0 <= shr_m (SpecFloat.iter_pos shr_1 p mrs))
      by (rewrite IH by exact Hm; apply Z.div_pos; lia).
    rewrite IH by exact H2. rewrite IH by exact Hm.
    rewrite !Z.div_div by lia. f_equal.
    rewrite Pos2Z.inj_xO, <- Z.pow_add_r by lia. f_equal. lia.
  - rewrite shr_1_m by exact Hm. reflexivity.
Qed.

Lemma shr_record_of_loc_m (m : Z) (l : location) : shr_m (shr_record_of_loc m l) = m.
Proof. destruct l as [| []]; reflexivity. Qed.

Lemma shr_fexp_m (m e : Z) (l : location) (d : Z) :
  0 < m -> Zdigits2 m = d -> -1074 <= d + e - 53 ->
  shr_m (fst (shr_fexp 53 1024 m e l)) = m / 2 ^ Z.max 0 (d - 53) /\
  snd (shr_fexp 53 1024 m e l) = e + Z.max 0 (d - 53).
Proof.
  intros Hm Hd Hn. unfold shr_fexp, fexp, emin. rewrite Hd.
  replace (Z.max (d + e - 53) (3 - 1024 - 53) - e) with (d - 53) by lia.
  unfold shr. destruct (d - 53) as [| p | p] eqn:E.
  - cbn [fst snd]. rewrite shr_record_of_loc_m, Z.max_id. change (2 ^ 0) with 1.
    rewrite Z.div_1_r. lia.
  - cbn [fst snd]. rewrite iter_pos_shr_1_m by (rewrite shr_record_of_loc_m; lia).
    rewrite shr_record_of_loc_m. rewrite Z.max_r by lia. auto.
  - cbn [fst snd]. rewrite shr_record_of_loc_m. rewrite Z.max_l by lia.
    change (2 ^ 0) with 1. rewrite Z.div_1_r. lia.
Qed.

(** Rounding moves a truncated mantissa up by one unit, or leaves it. *)
Lemma round_nearest_even_bracket (m : Z) (l : location) :
  m <= round_nearest_even m l <= m + 1.
Proof.
  unfold round_nearest_even. destruct l as [| []]; try lia. destruct (Z.even m); lia.
Qed.

Lemma pow2_split (a b : Z) : 0 <= a -> 0 <= b -> 2 ^ (a + b) = 2 ^ a * 2 ^ b.
Proof. intros. now rewrite Z.pow_add_r. Qed.

(** Rounding a mantissa of 53 digits or more, away from the subnormal
    numbers and from overflow: the result is a normal number, less than
    one unit in its last place away from the mantissa given. *)
Lemma binary_round_aux_bracket (mx ex : Z) (l : location) (d : Z) :
  0 < mx -> Zdigits2 mx = d -> 53 <= d ->
  -1074 <= ex + d - 53 -> ex + (d - 53) + 1 <= 971 ->
  exists (m : positive) (e : Z),
    binary_round_aux 53 1024 false mx ex l = S754_finite false m e /\
    2 ^ 52 <= Zpos m < 2 ^ 53 /\
    ex + (d - 53) <= e <= ex + (d - 53) + 1 /\
    mx - 2 ^ (d - 53) < Zpos m * 2 ^ (e - ex) <= mx + 2 ^ (d - 53).
Proof.
  intros Hmx Hd Hd53 Hlo Hhi. unfold binary_round_aux.
  destruct (shr_fexp_m mx ex l d Hmx Hd ltac:(lia)) as [Hm1 He1].
  destruct (shr_fexp 53 1024 mx ex l) as [mrs1 e1]. cbn [fst snd] in Hm1, He1.
  rewrite Z.max_r in Hm1, He1 by lia.
  pose proof (Zdigits2_bounds mx d Hmx Hd) as Hb. clear Hd.
  pose (n := d - 53). assert (Hdn : d = 53 + n) by (unfold n; lia).
  assert (Hn : 0 <= n) by lia. clearbody n. subst d.
  replace (53 + n - 53) with n in * by lia.
  replace (53 + n - 1) with (52 + n) in Hb by lia.
  rewrite !pow2_split in Hb by lia.
  assert (Hp : 0 < 2 ^ n) by (apply Z.pow_pos_nonneg; lia).
  set (mt := shr_m mrs1) in *.
  assert (Hmt : 2 ^ 52 <= mt < 2 ^ 53).
  { rewrite Hm1. split.
    - apply Z.div_le_lower_bound; lia.
    - apply Z.div_lt_upper_bound; lia. }
  assert (Hmtx : mt * 2 ^ n <= mx < (mt + 1) * 2 ^ n).
  { rewrite Hm1. pose proof (Z.mul_div_le mx (2 ^ n) Hp).
    pose proof (Z.mul_succ_div_gt mx (2 ^ n) Hp). lia. }
  pose proof (round_nearest_even_bracket mt (loc_of_shr_record mrs1)) as Hr.
  set (r := round_nearest_even mt (loc_of_shr_record mrs1)) in *.
  assert (Hrn : mt * 2 ^ n <= r * 2 ^ n <= (mt + 1) * 2 ^ n)
    by (split; apply Z.mul_le_mono_nonneg_r; lia).
  destruct (Z_lt_le_dec r (2 ^ 53)) as [Hlt | Hge].
  - assert (Hdr : Zdigits2 r = 53) by (apply Zdigits2_unique; change (53 - 1) with 52; lia).
    destruct (shr_fexp_m r e1 loc_Exact 53 ltac:(lia) Hdr ltac:(lia)) as [Hm2 He2].
    destruct (shr_fexp 53 1024 r e1 loc_Exact) as [mrs2 e2]. cbn [fst snd] in Hm2, He2.
    change (Z.max 0 (53 - 53)) with 0 in Hm2, He2. change (2 ^ 0) with 1 in Hm2.
    rewrite Z.div_1_r in Hm2. rewrite Hm2.
    destruct r as [| pr | pr]; try lia.
    replace (e2 <=? 1024 - 53) with true by (symmetry; apply Z.leb_le; lia).
    exists pr, e2. split; [reflexivity |]. split; [lia |]. split; [lia |].
    replace (e2 - ex) with n by lia. lia.
  - assert (Hr53 : r = 2 ^ 53) by lia.
    assert (Hdr : Zdigits2 r = 54) by (rewrite Hr53; reflexivity).
    destruct (shr_fexp_m r e1 loc_Exact 54 ltac:(lia) Hdr ltac:(lia)) as [Hm2 He2].
    destruct (shr_fexp 53 1024 r e1 loc_Exact) as [mrs2 e2]. cbn [fst snd] in Hm2, He2.
    change (Z.max 0 (54 - 53)) with 1 in Hm2, He2. rewrite Hm2, Hr53.
    change (2 ^ 53 / 2 ^ 1) with (Zpos (Pos.pow 2 52)).
    replace (e2 <=? 1024 - 53) with true by (symmetry; apply Z.leb_le; lia).
    exists (Pos.pow 2 52), e2. split; [reflexivity |].
    split; [change (Zpos (Pos.pow 2 52)) with (2 ^ 52); lia |]. split; [lia |].
    replace (e2 - ex) with (1 + n) by lia. rewrite pow2_split by lia.
    change (Zpos (Pos.pow 2 52)) with (2 ^ 52). change (2 ^ 1) with 2.
    replace (2 ^ 52 * (2 * 2 ^ n)) with (r * 2 ^ n)
      by (rewrite Hr53; change (2 ^ 53) with (2 ^ 52 * 2); ring).
    lia.
Qed.

(** A mantissa of 53 digits that is exact is kept as it is. *)
Lemma binary_round_aux_exact (mx : positive) (ex : Z) :
  Zpos (digits2_pos mx) = 53 -> -1074 <= ex <= 971 ->
  binary_round_aux 53 1024 false (Zpos mx) ex loc_Exact = S754_finite false mx ex.
Proof.
  intros Hd He. unfold binary_round_aux, shr_fexp, fexp, emin. cbn [Zdigits2 round_nearest_even].
  rewrite Hd. replace (Z.max (53 + ex - 53) (3 - 1024 - 53) - ex) with 0 by lia.
  cbn [shr shr_record_of_loc shr_m loc_of_shr_record round_nearest_even Zdigits2].
  rewrite Hd. replace (Z.max (53 + ex - 53) (3 - 1024 - 53) - ex) with 0 by lia.
  cbn [shr shr_record_of_loc shr_m].
  replace (ex <=? 1024 - 53) with true by (symmetry; apply Z.leb_le; lia).
  reflexivity.
Qed.

Lemma iter_xO_pow2 (p k : positive) : Zpos (Pos.iter xO p k) = Zpos p * 2 ^ Zpos k.
Proof.
  induction k as [| k IH] using Pos.peano_ind.
  - change (Pos.iter xO p 1) with (xO p). change (2 ^ 1) with 2. lia.
  - rewrite Pos.iter_succ, Pos2Z.inj_xO, IH, Pos2Z.inj_succ, Z.pow_succ_r by lia. ring.
Qed.

(** The conversion of a positive integer of at most 53 digits is exact,
    and normalized. *)
Lemma of_int_pos (n d : Z) :
  0 < n -> Zdigits2 n = d -> d <= 53 ->
  exists m : positive,
    Float64.of_int n = S754_finite false m (d - 53) /\ Zpos m = n * 2 ^ (53 - d) /\
    Zpos (digits2_pos m) = 53.
Proof.
  intros Hn Hd Hd53. destruct n as [| p | p]; try lia. cbn [Zdigits2] in Hd.
  pose proof (digits2_pos_bounds p) as Hb. rewrite Hd in Hb.
  unfold Float64.of_int, binary_normalize, binary_round, fexp, emin.
  rewrite Hd. replace (Z.max (d + 0 - 53) (3 - 1024 - 53)) with (d - 53) by lia.
  unfold shl_align. destruct (d - 53 - 0) as [| k | k] eqn:Ek; try lia.
  - assert (E : d = 53) by lia. rewrite E in *. exists p.
    rewrite binary_round_aux_exact by (auto; lia).
    change (53 - 53) with 0. change (2 ^ 0) with 1. rewrite Z.mul_1_r. auto.
  - exists (Pos.iter xO p k).
    assert (Hk : Zpos k = 53 - d) by lia.
    assert (Hv : Zpos (Pos.iter xO p k) = Zpos p * 2 ^ (53 - d))
      by (rewrite iter_xO_pow2, Hk; reflexivity).
    assert (Hdig : Zpos (digits2_pos (Pos.iter xO p k)) = 53).
    { apply digits2_pos_unique. rewrite Hv. change (53 - 1) with 52.
      assert (0 < 2 ^ (53 - d)) by (apply Z.pow_pos_nonneg; lia).
      assert (E52 : 2 ^ 52 = 2 ^ (d - 1) * 2 ^ (53 - d))
        by (rewrite <- Z.pow_add_r by lia; f_equal; lia).
      assert (E53 : 2 ^ 53 = 2 ^ d * 2 ^ (53 - d))
        by (rewrite <- Z.pow_add_r by lia; f_equal; lia).
      rewrite E52, E53. split.
      - apply Z.mul_le_mono_nonneg_r; lia.
      - apply Z.mul_lt_mono_pos_r; lia. }
    rewrite binary_round_aux_exact by (auto; lia). auto.
Qed.

(** The quotient of two normal numbers is a normal number; counted in
    units of [2 ^ (e1 - e2 - 53)], it is less than three units away from
    the exact quotient. *)
Lemma SFdiv_bracket (m1 m2 : positive) (e1 e2 : Z) :
  Zpos (digits2_pos m1) = 53 -> Zpos (digits2_pos m2) = 53 ->
  -900 <= e1 - e2 <= 900 ->
  exists (mq : positive) (eQ : Z),
    SFdiv 53 1024 (S754_finite false m1 e1) (S754_finite false m2 e2)
      = S754_finite false mq eQ /\
    Zpos (digits2_pos mq) = 53 /\
    e1 - e2 - 53 <= eQ <= e1 - e2 - 51 /\
    - (3 * Zpos m2)
      < Zpos mq * 2 ^ (eQ - (e1 - e2 - 53)) * Zpos m2 - Zpos m1 * 2 ^ 53
      <= 2 * Zpos m2.
Proof.
  intros Hd1 Hd2 He.
  pose proof (digits2_pos_bounds m1) as Hb1. pose proof (digits2_pos_bounds m2) as Hb2.
  rewrite Hd1 in Hb1. rewrite Hd2 in Hb2. change (53 - 1) with 52 in Hb1, Hb2.
  unfold SFdiv, SFdiv_core_binary. cbn [Zdigits2 xorb]. rewrite Hd1, Hd2.
  unfold fexp, emin.
  replace (Z.min (Z.max (53 + e1 - (53 + e2) - 53) (3 - 1024 - 53)) (e1 - e2))
    with (e1 - e2 - 53) by lia.
  replace (e1 - e2 - (e1 - e2 - 53)) with 53 by lia.
  rewrite Z.shiftl_mul_pow2 by lia.
  set (e' := e1 - e2 - 53).
  pose proof (Z_div_mod (Zpos m1 * 2 ^ 53) (Zpos m2) ltac:(lia)) as Hdm.
  destruct (Z.div_eucl (Zpos m1 * 2 ^ 53) (Zpos m2)) as [q r]. destruct Hdm as [Hq Hr].
  assert (Hqd : q = Zpos m1 * 2 ^ 53 / Zpos m2) by (apply Z.div_unique_pos with r; lia).
  assert (Hqb : 2 ^ 52 <= q < 2 ^ 54).
  { rewrite Hqd. split.
    - apply Z.div_le_lower_bound; lia.
    - apply Z.div_lt_upper_bound; lia. }
  assert (Hqpos : 0 < q) by lia.
  pose (dq := Zdigits2 q). pose proof (Zdigits2_bounds q dq Hqpos eq_refl) as Hdq.
  assert (Hdq' : 53 <= dq <= 54).
  { split.
    - destruct (Z_lt_le_dec dq 53); [| lia].
      assert (2 ^ dq <= 2 ^ 52) by (apply Z.pow_le_mono_r; lia). lia.
    - destruct (Z_lt_le_dec 54 dq); [| lia].
      assert (2 ^ 54 <= 2 ^ (dq - 1)) by (apply Z.pow_le_mono_r; lia). lia. }
  destruct (binary_round_aux_bracket q e' (new_location (Zpos m2) r) dq Hqpos eq_refl
              ltac:(lia) ltac:(unfold e'; lia) ltac:(unfold e'; lia))
    as (mq & eQ & Hres & Hmq & Heq & Hv).
  exists mq, eQ. split; [exact Hres |]. split.
  { apply digits2_pos_unique. exact Hmq. }
  split; [lia |].
  assert (Hulp : 1 <= 2 ^ (dq - 53) <= 2).
  { assert (dq = 53 \/ dq = 54) as [-> | ->] by lia;
      [change (2 ^ (53 - 53)) with 1 | change (2 ^ (54 - 53)) with 2]; lia. }
  set (V := Zpos mq * 2 ^ (eQ - e')) in *.
  assert ((q - 1) * Zpos m2 <= V * Zpos m2 <= (q + 2) * Zpos m2)
    by (split; apply Z.mul_le_mono_nonneg_r; lia).
  lia.
Qed.

(** The product of two normal numbers is a normal number; counted in
    units of [2 ^ (e1 + e2)], it is at most [2 ^ 53] away from the exact
    product, which has 105 or 106 digits. *)
Lemma SFmul_bracket (m1 m2 : positive) (e1 e2 : Z) :
  Zpos (digits2_pos m1) = 53 -> Zpos (digits2_pos m2) = 53 ->
  -900 <= e1 + e2 <= 800 ->
  exists (mp : positive) (ep : Z),
    SFmul 53 1024 (S754_finite false m1 e1) (S754_finite false m2 e2)
      = S754_finite false mp ep /\
    Zpos (digits2_pos mp) = 53 /\
    e1 + e2 + 52 <= ep <= e1 + e2 + 54 /\
    - 2 ^ 53 <= Zpos mp * 2 ^ (ep - (e1 + e2)) - Zpos m1 * Zpos m2 <= 2 ^ 53.
Proof.
  intros Hd1 Hd2 He.
  pose proof (digits2_pos_bounds m1) as Hb1. pose proof (digits2_pos_bounds m2) as Hb2.
  rewrite Hd1 in Hb1. rewrite Hd2 in Hb2. change (53 - 1) with 52 in Hb1, Hb2.
  unfold SFmul. cbn [xorb]. rewrite Pos2Z.inj_mul.
  set (mx := Zpos m1 * Zpos m2).
  assert (Hmxb : 2 ^ 104 <= mx < 2 ^ 106).
  { change (2 ^ 104) with (2 ^ 52 * 2 ^ 52). change (2 ^ 106) with (2 ^ 53 * 2 ^ 53).
    unfold mx. split.
    - apply Z.mul_le_mono_nonneg; lia.
    - apply Z.mul_lt_mono_nonneg; lia. }
  assert (Hmxpos : 0 < mx) by lia.
  pose (d := Zdigits2 mx). pose proof (Zdigits2_bounds mx d Hmxpos eq_refl) as Hd.
  assert (Hd' : 105 <= d <= 106).
  { split.
    - destruct (Z_lt_le_dec d 105); [| lia].
      assert (2 ^ d <= 2 ^ 104) by (apply Z.pow_le_mono_r; lia). lia.
    - destruct (Z_lt_le_dec 106 d); [| lia].
      assert (2 ^ 106 <= 2 ^ (d - 1)) by (apply Z.pow_le_mono_r; lia). lia. }
  destruct (binary_round_aux_bracket mx (e1 + e2) loc_Exact d Hmxpos eq_refl
              ltac:(lia) ltac:(lia) ltac:(lia))
    as (mp & ep & Hres & Hmp & Hep & Hv).
  exists mp, ep. split; [exact Hres |]. split.
  { apply digits2_pos_unique. exact Hmp. }
  split; [lia |].
  assert (Hulp : 1 <= 2 ^ (d - 53) <= 2 ^ 53).
  { assert (d = 105 \/ d = 106) as [-> | ->] by lia;
      [change (2 ^ (105 - 53)) with (2 ^ 52) | change (2 ^ (106 - 53)) with (2 ^ 53)];
      lia. }
  lia.
Qed.

Lemma mul_bracket (x y c : Z) : - c <= x <= c -> 0 <= y -> - (c * y) <= x * y <= c * y.
Proof.
  intros [Hl Hu] Hy.
  pose proof (Z.mul_le_mono_nonneg_r _ _ y Hy Hl).
  pose proof (Z.mul_le_mono_nonneg_r _ _ y Hy Hu). lia.
Qed.

Lemma Zdigits2_small (n : Z) : 0 < n -> n < 2 ^ 26 -> 1 <= Zdigits2 n <= 26.
Proof.
  intros Hn Hlt. pose proof (Zdigits2_bounds n _ Hn eq_refl) as Hb.
  set (d := Zdigits2 n) in *. split.
  - destruct n; subst d; cbn [Zdigits2]; lia.
  - destruct (Z_lt_le_dec 26 d); [| lia].
    assert (2 ^ 26 <= 2 ^ (d - 1)) by (apply Z.pow_le_mono_r; lia). lia.
Qed.

(** The percentage of the code against the exact quotient, for
    0 < u < a < 2^26: the two roundings move the product by less than
    [1 / a], the least distance of an inexact quotient to an integer. *)
Lemma percentOf_bracket (u a : Z) :
  0 < u < a -> a < 2 ^ 26 ->
  100 * u / a - 1 <= Bandwidth.percentOf u a <= 100 * u / a /\
  ((100 * u) mod a <> 0 -> Bandwidth.percentOf u a = 100 * u / a).
Proof.
  intros Hu Ha.
  pose proof (Zdigits2_small u ltac:(lia) ltac:(lia)) as Hdu.
  pose proof (Zdigits2_small a ltac:(lia) ltac:(lia)) as Hda.
  destruct (of_int_pos u _ ltac:(lia) eq_refl ltac:(lia)) as (m1 & Hf1 & Hm1 & Hd1).
  destruct (of_int_pos a _ ltac:(lia) eq_refl ltac:(lia)) as (m2 & Hf2 & Hm2 & Hd2).
  set (du := Zdigits2 u) in *. set (da := Zdigits2 a) in *.
  unfold Bandwidth.percentOf, Float64.div, Float64.mul. rewrite Hf1, Hf2.
  destruct (SFdiv_bracket m1 m2 (du - 53) (da - 53) Hd1 Hd2 ltac:(lia))
    as (mq & eQ & -> & Hdq & Heq & Hq).
  change (Float64.of_int 100) with (S754_finite false 7036874417766400 (-46)).
  destruct (SFmul_bracket 7036874417766400 mq (-46) eQ eq_refl Hdq ltac:(lia))
    as (mp & ep & -> & Hdp & Hep & Hp).
  set (e' := du - 53 - (da - 53) - 53) in *.
  unfold Float64.to_int, Float64.trunc, Int64.in_range.
  replace (0 <=? ep) with false by (symmetry; apply Z.leb_gt; lia).
  (* the powers of two involved *)
  set (Sc := 2 ^ (- ep)). set (c2 := 2 ^ (ep - (-46 + eQ))) in *.
  set (T := 2 ^ (eQ - e')) in *.
  set (A := 2 ^ (53 - da)) in *. set (B := 2 ^ (53 - du)) in *.
  assert (HS : 0 < Sc) by (apply Z.pow_pos_nonneg; lia).
  assert (Hc2 : 0 < c2) by (apply Z.pow_pos_nonneg; lia).
  assert (HT : 1 <= T <= 4).
  { unfold T. assert (eQ - e' = 0 \/ eQ - e' = 1 \/ eQ - e' = 2) as [-> | [-> | ->]] by lia;
      [change (2 ^ 0) with 1 | change (2 ^ 1) with 2 | change (2 ^ 2) with 4]; lia. }
  assert (HA : 0 < A) by (apply Z.pow_pos_nonneg; lia).
  assert (HB : 2 ^ 27 <= B) by (apply Z.pow_le_mono_r; lia).
  assert (Hprod : Sc * c2 * T * A = 2 ^ 99 * B).
  { unfold Sc, c2, T, A, B. rewrite <- !Z.pow_add_r by lia. f_equal. lia. }
  pose proof (digits2_pos_bounds m2) as Hb2. rewrite Hd2 in Hb2. change (53 - 1) with 52 in Hb2.
  (* error of the computed product, in units of the last place of the quotient *)
  set (V := Zpos mq * T) in *. set (W := Zpos mp * c2) in *.
  assert (HWT : - (2 ^ 55 * Zpos m2) <= (W * T - 7036874417766400 * V) * Zpos m2
                <= 2 ^ 55 * Zpos m2).
  { apply mul_bracket; [| lia]. unfold V.
    replace (W * T - 7036874417766400 * (Zpos mq * T))
      with ((W - 7036874417766400 * Zpos mq) * T) by ring.
    pose proof (mul_bracket _ T _ Hp ltac:(lia)).
    change (2 ^ 55) with (2 ^ 53 * 4). lia. }
  set (Zs := 2 ^ 99 * B) in *.
  assert (HY : - (2 ^ 57 * Zpos m2) <= W * T * Zpos m2 - 100 * u * Zs <= 2 ^ 57 * Zpos m2).
  { replace (W * T * Zpos m2 - 100 * u * Zs)
      with ((W * T - 7036874417766400 * V) * Zpos m2
            + 7036874417766400 * (V * Zpos m2 - Zpos m1 * 2 ^ 53)).
    2:{ rewrite Hm1. unfold Zs. fold B. change 7036874417766400 with (100 * 2 ^ 46).
        change (2 ^ 99) with (2 ^ 46 * 2 ^ 53). ring. }
    change (2 ^ 57) with (2 ^ 55 + 3 * 2 ^ 55).
    lia. }
  (* the exact quotient *)
  pose proof (Z.div_mod (100 * u) a ltac:(lia)) as Hdm.
  pose proof (Z.mod_pos_bound (100 * u) a ltac:(lia)) as Hrho.
  set (k := 100 * u / a) in *. set (rho := (100 * u) mod a) in *.
  assert (Hk : 0 <= k) by (apply Z.div_pos; lia).
  assert (Hk100 : k < 100) by (apply Z.div_lt_upper_bound; lia).
  set (G := c2 * T * Zpos m2).
  assert (HG : 0 < G) by (unfold G; repeat apply Z.mul_pos_pos; lia).
  assert (HSG : Sc * G = a * Zs).
  { unfold G. rewrite Hm2, <- Hprod. ring. }
  assert (HmpG : Zpos mp * G = W * T * Zpos m2) by (unfold G, W; ring).
  assert (HuZ : 100 * u * Zs = k * (a * Zs) + rho * Zs) by (rewrite Hdm; ring).
  assert (HZs : 2 ^ 126 <= Zs) by (unfold Zs; change (2 ^ 126) with (2 ^ 99 * 2 ^ 27); lia).
  assert (Herr : 2 ^ 57 * Zpos m2 < Zs) by (change (2 ^ 126) with (2 ^ 57 * 2 ^ 69) in HZs; lia).
  assert (HrZ : 0 <= rho * Zs <= a * Zs - Zs).
  { pose proof (Z.mul_le_mono_nonneg_r 0 rho Zs ltac:(lia) ltac:(lia)).
    pose proof (Z.mul_le_mono_nonneg_r rho (a - 1) Zs ltac:(lia) ltac:(lia)). lia. }
  assert (Hlow : (k - 1) * Sc <= Zpos mp).
  { apply (Z.mul_le_mono_pos_r _ _ G HG).
    replace ((k - 1) * Sc * G) with ((k - 1) * (Sc * G)) by ring.
    rewrite HSG, HmpG. lia. }
  assert (Hhigh : Zpos mp < (k + 1) * Sc).
  { apply (Z.mul_lt_mono_pos_r G _ _ HG).
    replace ((k + 1) * Sc * G) with ((k + 1) * (Sc * G)) by ring.
    rewrite HSG, HmpG. lia. }
  assert (Hdiv : k - 1 <= Zpos mp / Sc <= k).
  { split.
    - apply Z.div_le_lower_bound; lia.
    - assert (Zpos mp / Sc < k + 1) by (apply Z.div_lt_upper_bound; lia). lia. }
  assert (Hrange : ((Int64.min_int <=? Zpos mp / Sc) && (Zpos mp / Sc <=? Int64.max_int))%bool = true).
  { apply andb_true_intro. unfold Int64.min_int, Int64.max_int.
    split; apply Z.leb_le; lia. }
  rewrite Hrange. split; [exact Hdiv |].
  intros Hne. assert (1 <= rho) by lia.
  assert (HrZ' : Zs <= rho * Zs)
    by (pose proof (Z.mul_le_mono_nonneg_r 1 rho Zs ltac:(lia) ltac:(lia)); lia).
  assert (k * Sc <= Zpos mp).
  { apply (Z.mul_le_mono_pos_r _ _ G HG).
    replace (k * Sc * G) with (k * (Sc * G)) by ring.
    rewrite HSG, HmpG. lia. }
  assert (k <= Zpos mp / Sc) by (apply Z.div_le_lower_bound; lia).
  lia.
Qed.

End Float64Facts.

(** ** 64-bit integers *)

Module Int64Facts.

Lemma wrap_id (z : Z) : Int64.min_int <= z <= Int64.max_int -> Int64.wrap z = z.
Proof.
  unfold Int64.min_int, Int64.max_int, Int64.wrap. intros H.
  rewrite Z.mod_small by lia. lia.
Qed.

End Int64Facts.

(** ** The quota translation *)

Module BandwidthSpec.
Import Bandwidth.

Lemma percentOf_zero (a : Z) : 0 < a < 2 ^ 26 -> percentOf 0 a = 0.
Proof.
  intros Ha.
  pose proof (Float64Facts.Zdigits2_small a ltac:(lia) ltac:(lia)) as Hd.
  destruct (Float64Facts.of_int_pos a _ ltac:(lia) eq_refl ltac:(lia)) as (m & Hf & _).
  unfold percentOf. rewrite Hf. reflexivity.
Qed.

(** The percentage computed in binary64 against the exact quotient. *)
Lemma percentOf_floor (u a : Z) :
  0 <= u < a -> a <= 50000000 ->
  0 <= percentOf u a /\
  100 * u / a - 1 <= percentOf u a <= 100 * u / a /\
  ((100 * u) mod a <> 0 -> percentOf u a = 100 * u / a).
Proof.
  intros Hu Ha. assert (Ha26 : a < 2 ^ 26) by lia.
  destruct (Z.eq_dec u 0) as [-> | Hne].
  - rewrite percentOf_zero by lia. rewrite Z.mul_0_r, Z.div_0_l, Z.mod_0_l by lia. lia.
  - destruct (Float64Facts.percentOf_bracket u a ltac:(lia) Ha26) as [Hb Hex].
    split; [| split; assumption].
    destruct (Z.eq_dec ((100 * u) mod a) 0) as [Hz | Hnz].
    + assert (0 < 100 * u / a); [| lia].
      apply Z.div_str_pos. split; [lia |].
      pose proof (Z.div_mod (100 * u) a ltac:(lia)) as Hdm. rewrite Hz in Hdm.
      destruct (Z_lt_le_dec (100 * u) a) as [Hlt | Hge]; [| exact Hge].
      rewrite (Z.div_small (100 * u) a) in Hdm by lia. lia.
    + rewrite (Hex Hnz). apply Z.div_pos; lia.
Qed.

Lemma quotaSignal_kept (quota : Quota) :
  0 <= MiBAllowed quota <= 50000000 ->
  quotaSignal (Some quota) =
    Some (if MiBUsed quota >=? MiBAllowed quota then BandwidthUpdate 100 0
          else BandwidthUpdate (percentOf (MiBUsed quota) (MiBAllowed quota))
                 (Int64.sub (MiBAllowed quota) (MiBUsed quota))).
Proof.
  intros H. unfold quotaSignal.
  replace (MiBAllowed quota <? 0) with false by (symmetry; apply Z.ltb_ge; lia).
  replace (MiBAllowed quota >? 50000000) with false by (symmetry; rewrite Z.gtb_ltb; apply Z.ltb_ge; lia).
  cbn [orb]. destruct (MiBUsed quota >=? MiBAllowed quota); reflexivity.
Qed.

Lemma bandwidthUpdates_app (l1 l2 : list (option Quota)) :
  bandwidthUpdates (l1 ++ l2) = bandwidthUpdates l1 ++ bandwidthUpdates l2.
Proof.
  induction l1 as [| q l1 IH]; cbn [bandwidthUpdates app]; [reflexivity |].
  destruct (quotaSignal q); rewrite IH; reflexivity.
Qed.

(** C6. A sample is dropped, with no call to the sink, exactly when it is
    nil, or its [MiBAllowed] is negative, or above 50,000,000: whatever
    the samples before and after it, the calls made are those made without
    it. A sample with [MiBAllowed] -1 or 50,000,001 is dropped, one with
    50,000,000 is not. *)
Theorem quotaSignal_discard_iff :
  (forall quota : option Quota,
      quotaSignal quota = None <->
      match quota with
      | None => True
      | Some q => MiBAllowed q < 0 \/ MiBAllowed q > 50000000
      end) /\
  (forall (before after : list (option Quota)) (quota : option Quota),
      quotaSignal quota = None <->
      bandwidthUpdates (before ++ quota :: after)
        = bandwidthUpdates (before ++ after)) /\
  (forall used : Z,
      quotaSignal (Some {| MiBAllowed := -1; MiBUsed := used |}) = None /\
      quotaSignal (Some {| MiBAllowed := 50000001; MiBUsed := used |}) = None /\
      quotaSignal (Some {| MiBAllowed := 50000000; MiBUsed := used |}) <> None).
Proof.
  assert (Hiff : forall quota : option Quota,
      quotaSignal quota = None <->
      match quota with
      | None => True
      | Some q => MiBAllowed q < 0 \/ MiBAllowed q > 50000000
      end).
  { intros [q |]; [| cbn; tauto]. unfold quotaSignal.
    destruct (Z.ltb_spec (MiBAllowed q) 0) as [Hneg | Hnn]; cbn [orb].
    - split; [intros _; lia | reflexivity].
    - rewrite Z.gtb_ltb.
      destruct (Z.ltb_spec 50000000 (MiBAllowed q)) as [Hbig | Hsmall].
      + split; [intros _; lia | reflexivity].
      + split; [| lia]. destruct (MiBUsed q >=? MiBAllowed q); discriminate. }
  split; [exact Hiff |]. split.
  - intros before after quota. rewrite !bandwidthUpdates_app.
    cbn [bandwidthUpdates]. split.
    + intros ->. reflexivity.
    + destruct (quotaSignal quota) as [c |]; [| reflexivity]. intros Heq.
      apply (f_equal (@length SinkCall)) in Heq.
      rewrite !length_app in Heq. cbn [length] in Heq. lia.
  - intros used. split; [reflexivity | split; [reflexivity |]].
    intros H. apply Hiff in H. cbn in H. lia.
Qed.

(** C4, as the specification states it, fails: the sample
    [{MiBAllowed: 100, MiBUsed: -50}] is kept and its percentage is -50. *)
Lemma quotaSignal_negative_used :
  quotaSignal (Some {| MiBAllowed := 100; MiBUsed := -50 |})
    = Some (BandwidthUpdate (-50) 150) /\
  ~ (0 <= -50 <= 100).
Proof. split; [vm_compute; reflexivity | lia]. Qed.

(** C4, amended. For every sample that is kept and whose [MiBUsed] is not
    negative, the percentage is in [0, 100] and the remainder is not
    negative. *)
Theorem quotaSignal_range (quota : Quota) (percent remaining : Z) :
  0 <= MiBUsed quota ->
  quotaSignal (Some quota) = Some (BandwidthUpdate percent remaining) ->
  0 <= percent <= 100 /\ 0 <= remaining.
Proof.
  intros Hused Hsig.
  destruct (proj1 quotaSignal_discard_iff (Some quota)) as [_ Hdrop].
  assert (Hall : 0 <= MiBAllowed quota <= 50000000).
  { destruct (Z_lt_le_dec (MiBAllowed quota) 0) as [Hneg | Hnn];
      [rewrite Hdrop in Hsig by lia; discriminate |].
    destruct (Z_lt_le_dec 50000000 (MiBAllowed quota)) as [Hbig | Hsmall];
      [rewrite Hdrop in Hsig by lia; discriminate | lia]. }
  rewrite (quotaSignal_kept quota Hall) in Hsig.
  destruct (Z.geb_spec (MiBUsed quota) (MiBAllowed quota)) as [Hge | Hlt].
  - injection Hsig as <- <-. lia.
  - injection Hsig as <- <-.
    destruct (percentOf_floor (MiBUsed quota) (MiBAllowed quota) ltac:(lia) ltac:(lia))
      as (Hp0 & [_ Hp] & _).
    assert (100 * MiBUsed quota / MiBAllowed quota < 100)
      by (apply Z.div_lt_upper_bound; lia).
    unfold Int64.sub. rewrite Int64Facts.wrap_id
      by (unfold Int64.min_int, Int64.max_int; lia).
    lia.
Qed.

(** The sample [{MiBAllowed: 100, MiBUsed: 29}], sent as (28, 71). *)
Lemma quotaSignal_range_witness : 0 <= 28 <= 100 /\ 0 <= 71.
Proof.
  apply (quotaSignal_range {| MiBAllowed := 100; MiBUsed := 29 |} 28 71).
  - cbn. lia.
  - vm_compute. reflexivity.
Defined.

(** C5, as the specification states it, fails: for
    [{MiBAllowed: 100, MiBUsed: 29}] the exact quotient is 29 and the code
    sends 28, since 29/100 in binary64 times 100 is just below 29. *)
Lemma quotaSignal_not_floor :
  quotaSignal (Some {| MiBAllowed := 100; MiBUsed := 29 |})
    = Some (BandwidthUpdate 28 71) /\
  quotaSignal (Some {| MiBAllowed := 100; MiBUsed := 29 |})
    <> Some (BandwidthUpdate (100 * 29 / 100) (100 - 29)).
Proof. split; [vm_compute; reflexivity | vm_compute; discriminate]. Qed.

(** C5, amended. For every sample with 0 <= MiBAllowed <= 50,000,000 and
    MiBUsed >= 0: when MiBUsed >= MiBAllowed the signal is (100, 0);
    otherwise the remainder is exactly MiBAllowed - MiBUsed and the
    percentage, computed in binary64 and truncated, is
    floor(100 * MiBUsed / MiBAllowed) when MiBAllowed does not divide
    100 * MiBUsed, and that quotient or one less when it does.
    [{100, 100}] gives (100, 0) and [{200, 50}] gives (25, 150). *)
Theorem quotaSignal_value (quota : Quota) :
  0 <= MiBAllowed quota <= 50000000 ->
  0 <= MiBUsed quota ->
  (MiBUsed quota >= MiBAllowed quota ->
   quotaSignal (Some quota) = Some (BandwidthUpdate 100 0)) /\
  (MiBUsed quota < MiBAllowed quota ->
   exists percent : Z,
     quotaSignal (Some quota)
       = Some (BandwidthUpdate percent (MiBAllowed quota - MiBUsed quota)) /\
     100 * MiBUsed quota / MiBAllowed quota - 1 <= percent
       <= 100 * MiBUsed quota / MiBAllowed quota /\
     ((100 * MiBUsed quota) mod MiBAllowed quota <> 0 ->
      percent = 100 * MiBUsed quota / MiBAllowed quota)) /\
  quotaSignal (Some {| MiBAllowed := 100; MiBUsed := 100 |})
    = Some (BandwidthUpdate 100 0) /\
  quotaSignal (Some {| MiBAllowed := 200; MiBUsed := 50 |})
    = Some (BandwidthUpdate 25 150).
Proof.
  intros Hall Hused. rewrite (quotaSignal_kept quota Hall).
  split; [| split; [| split; vm_compute; reflexivity]].
  - intros Hge. destruct (Z.geb_spec (MiBUsed quota) (MiBAllowed quota)); [reflexivity | lia].
  - intros Hlt. destruct (Z.geb_spec (MiBUsed quota) (MiBAllowed quota)); [lia |].
    exists (percentOf (MiBUsed quota) (MiBAllowed quota)).
    destruct (percentOf_floor (MiBUsed quota) (MiBAllowed quota) ltac:(lia) ltac:(lia))
      as (_ & Hb & Hex).
    unfold Int64.sub. rewrite Int64Facts.wrap_id
      by (unfold Int64.min_int, Int64.max_int; lia).
    auto.
Qed.

(** The sample [{MiBAllowed: 300, MiBUsed: 100}]: 300 does not divide
    10000, the percentage is the exact floor. *)
Lemma quotaSignal_value_witness :
  exists percent : Z,
    quotaSignal (Some {| MiBAllowed := 300; MiBUsed := 100 |})
      = Some (BandwidthUpdate percent 200) /\
    percent = 33.
Proof.
  destruct (quotaSignal_value {| MiBAllowed := 300; MiBUsed := 100 |}) as (_ & H & _).
  - cbn. lia.
  - cbn. lia.
  - destruct H as (p & Hs & _ & Hex); [cbn; lia |].
    exists p. split; [exact Hs |]. apply Hex. vm_compute. discriminate.
Defined.

End BandwidthSpec.

(** ** Survey resolution *)

Module SurveySpec.
Import Go Survey.

Section Decoder.

Variable unmarshalSurveyInfo : RawMessage -> error + SurveyInfo.
Variable unmarshalRawMap : RawMessage -> error + RawMap.

Abbreviation extractUrl := (extractUrl unmarshalSurveyInfo).
Abbreviation surveyRequest := (surveyRequest unmarshalSurveyInfo unmarshalRawMap).

(** The body of [extractUrl], unfolded once. *)
Lemma extractUrl_eq (surveys : RawMap) (locale : string) :
  extractUrl surveys locale =
    match surveys !! locale with
    | Some (Some val) =>
        match unmarshalSurveyInfo val with
        | inl err =>
            (Returned (EmptyString, Some err),
             [MapLookup locale; Logged (ErrParsingSurvey err)])
        | inr survey =>
            (Returned (Url survey, None),
             [MapLookup locale; Logged (DbgFoundSurvey locale (Url survey))])
        end
    | Some None => (Panicked, [MapLookup locale])
    | None =>
        if decide (locale = defaultLocale) then
          (Returned (EmptyString, None), [MapLookup locale])
        else
          (fst (extractUrl surveys defaultLocale),
           MapLookup locale :: Logged (DbgUsingDefault locale)
             :: snd (extractUrl surveys defaultLocale))
    end.
Proof.
  etransitivity; [apply extractUrl_unfold_eq |].
  unfold extractUrl_unfold.
  destruct (surveys !! locale) as [[val |] |]; cbn.
  - destruct (unmarshalSurveyInfo val); reflexivity.
  - reflexivity.
  - destruct (decide (locale = defaultLocale)); reflexivity.
Qed.

Lemma extractUrl_found (surveys : RawMap) (locale : string)
    (val : RawMessage) (survey : SurveyInfo) :
  surveys !! locale = Some (Some val) ->
  unmarshalSurveyInfo val = inr survey ->
  extractUrl surveys locale =
    (Returned (Url survey, None),
     [MapLookup locale; Logged (DbgFoundSurvey locale (Url survey))]).
Proof. intros Hl Hu. rewrite extractUrl_eq, Hl, Hu. reflexivity. Qed.

Lemma extractUrl_default_missing (surveys : RawMap) :
  surveys !! defaultLocale = None ->
  extractUrl surveys defaultLocale
    = (Returned (EmptyString, None), [MapLookup defaultLocale]).
Proof.
  intros Hl. rewrite extractUrl_eq, Hl.
  destruct (decide (defaultLocale = defaultLocale)); [reflexivity | congruence].
Qed.

Lemma extractUrl_missing (surveys : RawMap) (locale : string) :
  surveys !! locale = None -> locale <> defaultLocale ->
  extractUrl surveys locale =
    (fst (extractUrl surveys defaultLocale),
     MapLookup locale :: Logged (DbgUsingDefault locale)
       :: snd (extractUrl surveys defaultLocale)).
Proof.
  intros Hl Hne. rewrite extractUrl_eq at 1. rewrite Hl.
  destruct (decide (locale = defaultLocale)); [contradiction | reflexivity].
Qed.

(** The default locale is resolved with one read of the map. *)
Lemma extractUrl_default_lookups (surveys : RawMap) :
  lookups (snd (extractUrl surveys defaultLocale)) = [defaultLocale].
Proof.
  rewrite extractUrl_eq.
  destruct (surveys !! defaultLocale) as [[val |] |].
  - destruct (unmarshalSurveyInfo val); reflexivity.
  - reflexivity.
  - destruct (decide (defaultLocale = defaultLocale)); [reflexivity | congruence].
Qed.

(** C7. The resolution: a key that is present with a value that decodes
    gives its url and no error; a missing key under another locale than
    en-US gives what the resolution of en-US gives, after a second read of
    the map at en-US; a missing en-US key gives the empty url and nil. A map holding
    en-US only resolves de-DE to the url of the en-US entry. *)
Theorem extractUrl_fallback :
  (forall (surveys : RawMap) (locale : string) (val : RawMessage)
          (survey : SurveyInfo),
      surveys !! locale = Some (Some val) ->
      unmarshalSurveyInfo val = inr survey ->
      fst (extractUrl surveys locale) = Returned (Url survey, None)) /\
  (forall (surveys : RawMap) (locale : string),
      surveys !! locale = None -> locale <> "en-US"%string ->
      fst (extractUrl surveys locale) = fst (extractUrl surveys "en-US") /\
      lookups (snd (extractUrl surveys locale)) = [locale; "en-US"%string]) /\
  (forall surveys : RawMap,
      surveys !! "en-US"%string = None ->
      fst (extractUrl surveys "en-US") = Returned (EmptyString, None)) /\
  (forall (val : RawMessage) (survey : SurveyInfo),
      unmarshalSurveyInfo val = inr survey ->
      fst (extractUrl {[ "en-US"%string := Some val ]} "de-DE")
        = Returned (Url survey, None)).
Proof.
  split; [| split; [| split]].
  - intros surveys locale val survey Hl Hu.
    rewrite (extractUrl_found _ _ _ _ Hl Hu). reflexivity.
  - intros surveys locale Hl Hne.
    rewrite (extractUrl_missing _ _ Hl Hne). cbn [fst snd lookups].
    pose proof (extractUrl_default_lookups surveys) as Hd.
    unfold defaultLocale in *. rewrite Hd. auto.
  - intros surveys Hl.
    exact (f_equal fst (extractUrl_default_missing surveys Hl)).
  - intros val survey Hu.
    rewrite extractUrl_missing by (reflexivity || discriminate).
    cbn [fst].
    rewrite (extractUrl_found _ defaultLocale val survey); auto.
Qed.

(** C8. A key that is present with a value that does not decode gives the
    empty url and the decoder's error, after the one read of the map at
    the requested locale: en-US is not tried. *)
Theorem extractUrl_malformed (surveys : RawMap) (locale : string)
    (val : RawMessage) (err : error) :
  surveys !! locale = Some (Some val) ->
  unmarshalSurveyInfo val = inl err ->
  extractUrl surveys locale =
    (Returned (EmptyString, Some err),
     [MapLookup locale; Logged (ErrParsingSurvey err)]) /\
  lookups (snd (extractUrl surveys locale)) = [locale].
Proof.
  intros Hl Hu. rewrite extractUrl_eq, Hl, Hu. split; reflexivity.
Qed.

(** C9. [extractUrl] is total, and a resolution calls it once, or twice
    with en-US as the second locale: it reads the map at the requested
    locale and then, at most, at en-US. *)
Theorem extractUrl_depth (surveys : RawMap) (locale : string) :
  (length (lookups (snd (extractUrl surveys locale))) <= 2)%nat /\
  (lookups (snd (extractUrl surveys locale)) = [locale] \/
   locale <> "en-US"%string /\
   lookups (snd (extractUrl surveys locale)) = [locale; "en-US"%string]).
Proof.
  assert (H : lookups (snd (extractUrl surveys locale)) = [locale] \/
              locale <> defaultLocale /\
              lookups (snd (extractUrl surveys locale)) = [locale; defaultLocale]).
  { rewrite extractUrl_eq.
    destruct (surveys !! locale) as [[val |] |].
    - left. destruct (unmarshalSurveyInfo val); reflexivity.
    - left. reflexivity.
    - destruct (decide (locale = defaultLocale)) as [Heq | Hne].
      + left. reflexivity.
      + right. split; [exact Hne |]. cbn [snd lookups].
        rewrite extractUrl_default_lookups. reflexivity. }
  split; [| exact H].
  destruct H as [-> | [_ ->]]; cbn [length]; lia.
Qed.

(** C10. When the document decodes and its map has no "survey" key, or
    holds a nil pointer there, [surveyRequest] returns the empty url and nil. When the
    body was read and [surveyRequest] returns an error, that error is the
    one of a failed decoding: of the document, or inside its "survey"
    value, of the map of locales or of the entry the resolution found. *)
Theorem surveyRequest_missing_survey :
  (forall (contents : RawMessage) (locale : string) (surveyResp : RawMap),
      unmarshalRawMap contents = inr surveyResp ->
      surveyResp !! "survey"%string = None \/
      surveyResp !! "survey"%string = Some None ->
      surveyRequest (Body contents) locale =
        (Returned (EmptyString, None),
         [MapLookup "survey"; Logged ErrMissingFromMap])) /\
  (forall (contents : RawMessage) (locale url : string) (err : error)
          (tr : list Event),
      surveyRequest (Body contents) locale = (Returned (url, Some err), tr) ->
      unmarshalRawMap contents = inl err \/
      exists (surveyResp : RawMap) (val : RawMessage),
        unmarshalRawMap contents = inr surveyResp /\
        surveyResp !! "survey"%string = Some (Some val) /\
        (unmarshalRawMap val = inl err \/
         exists (surveys : RawMap) (key : string) (entry : RawMessage),
           unmarshalRawMap val = inr surveys /\
           surveys !! key = Some (Some entry) /\
           unmarshalSurveyInfo entry = inl err)).
Proof.
  split.
  - intros contents locale surveyResp Hdec Hkey. unfold Survey.surveyRequest.
    rewrite Hdec. destruct Hkey as [-> | ->]; reflexivity.
  - intros contents locale url err tr. unfold Survey.surveyRequest.
    destruct (unmarshalRawMap contents) as [e | surveyResp] eqn:Hdec.
    { intros [= _ -> _]. left. reflexivity. }
    destruct (surveyResp !! "survey"%string) as [[val |] |] eqn:Hkey;
      [| discriminate | discriminate].
    intros Hres. right. exists surveyResp, val.
    split; [reflexivity |]. split; [exact Hkey |].
    destruct (unmarshalRawMap val) as [e | surveys] eqn:Hin.
    { injection Hres as _ -> _. left. reflexivity. }
    right. cbn zeta in Hres. injection Hres as Hres _.
    set (loc := Replace locale "_" "-") in *. clearbody loc.
    assert (Hgen : forall l, fst (extractUrl surveys l) = Returned (url, Some err) ->
              exists key entry, surveys !! key = Some (Some entry) /\
                                unmarshalSurveyInfo entry = inl err).
    { assert (Hone : forall l, surveys !! l <> None ->
                fst (extractUrl surveys l) = Returned (url, Some err) ->
                exists key entry, surveys !! key = Some (Some entry) /\
                                  unmarshalSurveyInfo entry = inl err).
      { intros l Hl. rewrite extractUrl_eq.
        destruct (surveys !! l) as [[entry |] |] eqn:Hlk; [| discriminate | congruence].
        destruct (unmarshalSurveyInfo entry) as [e |] eqn:He; [| discriminate].
        intros [= _ ->]. exists l, entry. auto. }
      intros l. destruct (surveys !! l) as [o |] eqn:Hl.
      - apply Hone. congruence.
      - rewrite extractUrl_eq, Hl.
        destruct (decide (l = defaultLocale)); [discriminate |]. cbn [fst].
        destruct (surveys !! defaultLocale) as [o |] eqn:Hd.
        + apply Hone. congruence.
        + rewrite (extractUrl_default_missing surveys Hd). discriminate. }
    destruct (Hgen loc Hres) as (key & entry & Hk & He).
    exists surveys, key, entry. auto.
Qed.

End Decoder.

(** The theorems at the decoders of [SurveyExamples]. *)

(** A map holding en-US only, asked for de-DE. *)
Lemma extractUrl_fallback_witness :
  fst (Survey.extractUrl SurveyExamples.unmarshalSurveyInfo
         {[ "en-US"%string := Some "https://example.org/s"%string ]} "de-DE")
    = Returned ("https://example.org/s"%string, None).
Proof.
  destruct (extractUrl_fallback SurveyExamples.unmarshalSurveyInfo) as (_ & _ & _ & H).
  apply (H "https://example.org/s"%string
           (SurveyExamples.surveyAt "https://example.org/s")).
  reflexivity.
Defined.

(** A malformed de-DE entry next to a good en-US one. *)
Lemma extractUrl_malformed_witness :
  Survey.extractUrl SurveyExamples.unmarshalSurveyInfo
    {[ "de-DE"%string := Some EmptyString;
       "en-US"%string := Some "https://example.org/s"%string ]} "de-DE"
    = (Returned (EmptyString, Some SurveyExamples.syntaxError),
       [MapLookup "de-DE"; Logged (ErrParsingSurvey SurveyExamples.syntaxError)]) /\
  lookups (snd (Survey.extractUrl SurveyExamples.unmarshalSurveyInfo
    {[ "de-DE"%string := Some EmptyString;
       "en-US"%string := Some "https://example.org/s"%string ]} "de-DE"))
    = ["de-DE"%string].
Proof.
  apply (extractUrl_malformed SurveyExamples.unmarshalSurveyInfo _ _ EmptyString).
  - vm_compute. reflexivity.
  - reflexivity.
Defined.

(** The document [{}]. *)
Lemma surveyRequest_missing_survey_witness :
  Survey.surveyRequest SurveyExamples.unmarshalSurveyInfo
    SurveyExamples.unmarshalRawMap (Body "{}") "fr_FR"
    = (Returned (EmptyString, None), [MapLookup "survey"; Logged ErrMissingFromMap]).
Proof.
  destruct (surveyRequest_missing_survey SurveyExamples.unmarshalSurveyInfo
              SurveyExamples.unmarshalRawMap) as [H _].
  apply (H "{}"%string "fr_FR"%string ∅).
  - reflexivity.
  - left. vm_compute. reflexivity.
Defined.

End SurveySpec.

(** ** Startup coordination *)

Module StartupSpec.
Import Go Effects Startup.

(** Whatever the collaborators, the calls a program makes against them and
    its result are a run of the program. *)
Lemma exec_runs {E : Type -> Type} {W R : Type} (h : handler E W)
    (p : prog E R) (w : W) :
  runs p (snd (exec h p w)) (fst (fst (exec h p w))).
Proof.
  revert w. induction p as [r | X e k IH]; intros w; cbn [exec runs].
  - auto.
  - destruct (h X e w) as [x w']. specialize (IH x w').
    destruct (exec h (k x) w') as [[r w''] tr]. cbn [fst snd] in *.
    exists x, tr. auto.
Qed.

(** Proves that a given list of calls and result is a run of a given
    program. *)
Ltac prove_run :=
  repeat (cbn [runs negb];
          first [ split; reflexivity
                | do 2 eexists; split; [reflexivity |] ]).

(** The runs of [Start]. *)
Lemma Start_runs (configDir locale : string) (timeoutMillis : Z)
    (tr : list (call StartCall))
    (r : outcome (option StartResult * option error)) :
  runs (Start configDir locale timeoutMillis) tr r ->
  exists (start : Z) (addr : iface) (ok : bool) (rest : list (call StartCall)),
    tr = Called (SetHomeDir configDir) tt
           :: Called (StartOnceGoRun configDir locale) tt
           :: Called TimeNow start
           :: Called (ClientAddr (timeoutDuration timeoutMillis)) (addr, ok)
           :: rest /\
    (if ok then
       exists (now : Z) (socksAddr : iface) (ok' : bool),
         rest = [Called TimeNow now;
                 Called (ClientSocks5Addr
                           (Int64.sub (timeoutDuration timeoutMillis)
                              (Sub now start)))
                   (socksAddr, ok')] /\
         r = (if ok' then
                match addr, socksAddr with
                | StringValue a, StringValue s =>
                    Returned (Some {| HTTPAddr := a; SOCKS5Addr := s |}, None)
                | _, _ => Panicked
                end
              else Returned (None, Some socksTimeout))
     else rest = [] /\ r = Returned (None, Some httpTimeout)).
Proof.
  cbn [runs Start].
  intros ([] & tr1 & -> & [] & tr2 & -> & start & tr3 & -> & [addr ok] & tr4 & -> & H).
  exists start, addr, ok, tr4. split; [reflexivity |].
  destruct ok; cbn [negb runs] in H.
  - destruct H as (now & tr5 & -> & [socksAddr ok'] & tr6 & -> & H).
    exists now, socksAddr, ok'.
    destruct ok'; cbn [negb runs] in H.
    + destruct addr, socksAddr; cbn [runs] in H; destruct H as [-> ->]; auto.
    + destruct H as [-> ->]; auto.
  - destruct H as [-> ->]. auto.
Qed.

(** C1, as the specification states it, fails: with a budget of 1000 ms
    and an HTTP address that arrives after 1000.000001 ms, the wait on the
    SOCKS address is given -1 ns. *)
Lemma Start_negative_allotment :
  runs (Start "/data/lantern" "en_US" 1000)
    [Called (SetHomeDir "/data/lantern") tt;
     Called (StartOnceGoRun "/data/lantern" "en_US") tt;
     Called TimeNow 0;
     Called (ClientAddr 1000000000) (StringValue "127.0.0.1:8787", true);
     Called TimeNow 1000000001;
     Called (ClientSocks5Addr (-1)) (OtherValue, false)]
    (Returned (None, Some socksTimeout)) /\
  -1 < 0.
Proof. split; [unfold Start; prove_run | lia]. Qed.

(** C1, amended. Every run of [Start] waits for the HTTP address first,
    with the whole budget; when that wait succeeds it reads the clock and
    waits for the SOCKS address with the budget minus the elapsed time, as
    computed and not clamped: for a budget of at most 9,223,372,036,854 ms
    and an elapsed time that fits a duration, exactly
    budget - elapsed, which is negative when the first wait took longer
    than the budget. What a wait does with a negative allotment is the
    engine's business. *)
Theorem Start_budget_split (configDir locale : string) (timeoutMillis : Z)
    (tr : list (call StartCall))
    (r : outcome (option StartResult * option error)) :
  runs (Start configDir locale timeoutMillis) tr r ->
  exists (start : Z) (addr : iface) (ok : bool) (rest : list (call StartCall)),
    tr = Called (SetHomeDir configDir) tt
           :: Called (StartOnceGoRun configDir locale) tt
           :: Called TimeNow start
           :: Called (ClientAddr (timeoutDuration timeoutMillis)) (addr, ok)
           :: rest /\
    (ok = false -> rest = []) /\
    (ok = true ->
     exists (now : Z) (socksAddr : iface) (ok' : bool),
       rest = [Called TimeNow now;
               Called (ClientSocks5Addr
                         (Int64.sub (timeoutDuration timeoutMillis)
                            (Sub now start)))
                 (socksAddr, ok')]) /\
    (0 <= timeoutMillis <= 9223372036854 ->
     timeoutDuration timeoutMillis = timeoutMillis * 1000000 /\
     forall now : Z,
       0 <= now - start <= Int64.max_int ->
       Int64.sub (timeoutDuration timeoutMillis) (Sub now start)
         = timeoutMillis * 1000000 - (now - start)).
Proof.
  intros H. destruct (Start_runs _ _ _ _ _ H) as (start & addr & ok & rest & -> & Hrest).
  exists start, addr, ok, rest. split; [reflexivity |].
  split; [| split].
  - intros ->. tauto.
  - intros ->. destruct Hrest as (now & socksAddr & ok' & -> & _). eauto.
  - intros HT.
    assert (Hd : timeoutDuration timeoutMillis = timeoutMillis * 1000000).
    { unfold timeoutDuration, Int64.mul, Millisecond.
      apply Int64Facts.wrap_id. unfold Int64.min_int, Int64.max_int. lia. }
    split; [exact Hd |]. intros now Hnow. rewrite Hd.
    unfold Sub, Int64.max_int, Int64.min_int in *.
    rewrite Z.gtb_ltb.
    destruct (Z.ltb_spec (2 ^ 63 - 1) (now - start)); [lia |].
    destruct (Z.ltb_spec (now - start) (- 2 ^ 63)); [lia |].
    unfold Int64.sub. apply Int64Facts.wrap_id.
    unfold Int64.min_int, Int64.max_int. lia.
Qed.

(** The run with the late HTTP address. *)
Lemma Start_budget_split_witness :
  exists (start : Z) (addr : iface) (ok : bool) (rest : list (call StartCall)),
    [Called (SetHomeDir "/data/lantern") tt;
     Called (StartOnceGoRun "/data/lantern" "en_US") tt;
     Called TimeNow 0;
     Called (ClientAddr 1000000000) (StringValue "127.0.0.1:8787", true);
     Called TimeNow 1000000001;
     Called (ClientSocks5Addr (-1)) (OtherValue, false)]
    = Called (SetHomeDir "/data/lantern") tt
        :: Called (StartOnceGoRun "/data/lantern" "en_US") tt
        :: Called TimeNow start
        :: Called (ClientAddr (timeoutDuration 1000)) (addr, ok)
        :: rest /\
    (0 <= 1000 <= 9223372036854 ->
     forall now : Z,
       0 <= now - start <= Int64.max_int ->
       Int64.sub (timeoutDuration 1000) (Sub now start)
         = 1000 * 1000000 - (now - start)).
Proof.
  assert (Hrun : runs (Start "/data/lantern" "en_US" 1000)
            [Called (SetHomeDir "/data/lantern") tt;
             Called (StartOnceGoRun "/data/lantern" "en_US") tt;
             Called TimeNow 0;
             Called (ClientAddr 1000000000) (StringValue "127.0.0.1:8787", true);
             Called TimeNow 1000000001;
             Called (ClientSocks5Addr (-1)) (OtherValue, false)]
            (Returned (None, Some socksTimeout)))
    by (unfold Start; prove_run).
  destruct (Start_budget_split "/data/lantern" "en_US" 1000 _ _ Hrun)
    as (start & addr & ok & rest & Htr & _ & _ & Hbud).
  exists start, addr, ok, rest. split; [exact Htr |].
  intros HT. exact (proj2 (Hbud HT)).
Defined.

(** C2. A run of [Start] returns a result only after both waits
    succeeded, with the two addresses and no error; when the wait on the
    HTTP address fails it returns no result and an error, and no wait on
    the SOCKS address is made; when the wait on the SOCKS address fails it
    returns no result and an error. *)
Theorem Start_no_partial_result (configDir locale : string)
    (timeoutMillis : Z) (tr : list (call StartCall))
    (r : outcome (option StartResult * option error)) :
  runs (Start configDir locale timeoutMillis) tr r ->
  (forall (result : StartResult) (err : option error),
      r = Returned (Some result, err) ->
      err = None /\
      exists d1 d2 : Z,
        waits tr = [HTTPWait d1 (StringValue (HTTPAddr result)) true;
                    SOCKSWait d2 (StringValue (SOCKS5Addr result)) true]) /\
  (forall (d : Z) (v : iface),
      In (HTTPWait d v false) (waits tr) ->
      r = Returned (None, Some httpTimeout) /\
      waits tr = [HTTPWait d v false]) /\
  (forall (d : Z) (v : iface),
      In (SOCKSWait d v false) (waits tr) ->
      r = Returned (None, Some socksTimeout)).
Proof.
  intros H. destruct (Start_runs _ _ _ _ _ H) as (start & addr & ok & rest & -> & Hrest).
  destruct ok.
  - destruct Hrest as (now & socksAddr & ok' & -> & ->).
    cbn [waits omap list_omap waitOf fst snd].
    split; [| split].
    + intros result err Hr. destruct ok'; [| discriminate].
      destruct addr as [a |], socksAddr as [s |]; try discriminate.
      injection Hr as <- <-. cbn [HTTPAddr SOCKS5Addr]. eauto.
    + intros d v [Hin | [Hin | []]]; discriminate.
    + intros d v [Hin | [Hin | []]]; [discriminate |].
      injection Hin as _ _ ->. reflexivity.
  - destruct Hrest as [-> ->].
    cbn [waits omap list_omap waitOf fst snd].
    split; [| split].
    + intros result err Hr. discriminate.
    + intros d v [Hin | []]. injection Hin as -> ->. auto.
    + intros d v [Hin | []]. discriminate.
Qed.

(** A run in which both addresses arrive, the first after 250 ms. *)
Lemma Start_no_partial_result_witness :
  exists d1 d2 : Z,
    waits [Called (SetHomeDir "/data/lantern") tt;
           Called (StartOnceGoRun "/data/lantern" "en_US") tt;
           Called TimeNow 0;
           Called (ClientAddr 1000000000) (StringValue "127.0.0.1:8787", true);
           Called TimeNow 250000000;
           Called (ClientSocks5Addr 750000000)
             (StringValue "127.0.0.1:1080", true)]
    = [HTTPWait d1 (StringValue "127.0.0.1:8787") true;
       SOCKSWait d2 (StringValue "127.0.0.1:1080") true].
Proof.
  assert (Hrun : runs (Start "/data/lantern" "en_US" 1000)
            [Called (SetHomeDir "/data/lantern") tt;
             Called (StartOnceGoRun "/data/lantern" "en_US") tt;
             Called TimeNow 0;
             Called (ClientAddr 1000000000) (StringValue "127.0.0.1:8787", true);
             Called TimeNow 250000000;
             Called (ClientSocks5Addr 750000000)
               (StringValue "127.0.0.1:1080", true)]
            (Returned (Some {| HTTPAddr := "127.0.0.1:8787";
                               SOCKS5Addr := "127.0.0.1:1080" |}, None)))
    by (unfold Start; prove_run).
  destruct (Start_no_partial_result _ _ _ _ _ Hrun) as [Hres _].
  exact (proj2 (Hres _ _ eq_refl)).
Defined.

(** The runs of [run]. *)
Lemma run_runs (stagingMode configDir locale : string)
    (tr : list (call RunCall)) :
  runs (run stagingMode configDir locale) tr tt ->
  exists (err : option PathError) (rest : list (call RunCall)),
    tr = Called (MkdirAll configDir 493) err :: rest /\
    (if IsExist err then
       rest = [Called (Log (ErrCreateConfigDir configDir err)) tt]
     else
       exists (err' : option error) (rest' : list (call RunCall)),
         rest = Called (EnableFileLogging configDir) err' :: rest').
Proof.
  cbn [runs run]. intros (err & rest & -> & H).
  exists err, rest. split; [reflexivity |].
  destruct (IsExist err); cbn [runs] in H.
  - destruct H as ([] & tr1 & -> & -> & _). reflexivity.
  - destruct H as (err' & rest' & -> & _). eauto.
Qed.

(** C3, what the code does. [run] gives up after the creation of the
    directory, logging the error, exactly when [os.IsExist] holds of the
    error, that is when the creation failed because the path exists; after
    a creation that succeeded, and after one that failed for any other
    reason, it goes on to enable file logging. *)
Theorem run_aborts_iff_IsExist (stagingMode configDir locale : string)
    (tr : list (call RunCall)) :
  runs (run stagingMode configDir locale) tr tt ->
  exists (err : option PathError) (rest : list (call RunCall)),
    tr = Called (MkdirAll configDir 493) err :: rest /\
    (IsExist err = true ->
     rest = [Called (Log (ErrCreateConfigDir configDir err)) tt]) /\
    (IsExist err = false ->
     exists (err' : option error) (rest' : list (call RunCall)),
       rest = Called (EnableFileLogging configDir) err' :: rest').
Proof.
  intros H. destruct (run_runs _ _ _ _ H) as (err & rest & -> & Hrest).
  exists err, rest. split; [reflexivity |].
  destruct (IsExist err); split; intros; try discriminate; exact Hrest.
Qed.

(** [run] after a creation that failed for lack of permission: file
    logging is enabled and the engine is started. *)
Lemma run_aborts_iff_IsExist_witness :
  exists (err : option PathError) (rest : list (call RunCall)),
    [Called (MkdirAll "/data/lantern" 493)
       (Some {| Op := "mkdir"; Path := "/data/lantern"; Err := EACCES |});
     Called (EnableFileLogging "/data/lantern") None;
     Called (Log (DbgWritingLog "/data/lantern")) tt;
     Called (FlashlightRun "127.0.0.1:0" "127.0.0.1:0" "/data/lantern" false
               "en_US") tt]
    = Called (MkdirAll "/data/lantern" 493) err :: rest /\
    (IsExist err = false ->
     exists (err' : option error) (rest' : list (call RunCall)),
       rest = Called (EnableFileLogging "/data/lantern") err' :: rest').
Proof.
  assert (Hrun : runs (run "false" "/data/lantern" "en_US")
            [Called (MkdirAll "/data/lantern" 493)
               (Some {| Op := "mkdir"; Path := "/data/lantern"; Err := EACCES |});
             Called (EnableFileLogging "/data/lantern") None;
             Called (Log (DbgWritingLog "/data/lantern")) tt;
             Called (FlashlightRun "127.0.0.1:0" "127.0.0.1:0" "/data/lantern"
                       false "en_US") tt]
            tt)
    by (unfold run; prove_run).
  destruct (run_aborts_iff_IsExist _ _ _ _ Hrun) as (err & rest & Htr & _ & Hgo).
  exists err, rest. auto.
Defined.

End StartupSpec.

(** * Further properties *)

(** ** Signs in binary64 *)

Module Float64Sign.

(** The sign given to a rounding only labels its result. *)
Lemma binary_round_aux_sign (s : bool) (mx ex : Z) (l : location) :
  binary_round_aux 53 1024 s mx ex l
    = Float64.with_sign s (binary_round_aux 53 1024 false mx ex l).
Proof.
  unfold binary_round_aux.
  destruct (shr_fexp 53 1024 mx ex l) as [mrs1 e1].
  destruct (shr_fexp 53 1024 _ e1 loc_Exact) as [mrs2 e2].
  destruct (shr_m mrs2); try reflexivity.
  destruct (e2 <=? 1024 - 53); reflexivity.
Qed.

Lemma of_int_neg (p : positive) :
  Float64.of_int (Zneg p) = Float64.with_sign true (Float64.of_int (Zpos p)).
Proof.
  unfold Float64.of_int, binary_normalize, binary_round.
  destruct (shl_align p 0 _) as [mz ez]. apply binary_round_aux_sign.
Qed.

Lemma SFdiv_sign (s1 s2 : bool) (m1 m2 : positive) (e1 e2 : Z) :
  SFdiv 53 1024 (S754_finite s1 m1 e1) (S754_finite s2 m2 e2)
    = Float64.with_sign (xorb s1 s2)
        (SFdiv 53 1024 (S754_finite false m1 e1) (S754_finite false m2 e2)).
Proof.
  unfold SFdiv.
  destruct (SFdiv_core_binary 53 1024 (Zpos m1) e1 (Zpos m2) e2) as [[mz ez] lz].
  cbn [xorb]. apply binary_round_aux_sign.
Qed.

Lemma SFmul_sign (s1 s2 : bool) (m1 m2 : positive) (e1 e2 : Z) :
  SFmul 53 1024 (S754_finite s1 m1 e1) (S754_finite s2 m2 e2)
    = Float64.with_sign (xorb s1 s2)
        (SFmul 53 1024 (S754_finite false m1 e1) (S754_finite false m2 e2)).
Proof. unfold SFmul. cbn [xorb]. apply binary_round_aux_sign. Qed.

(** The conversion of a positive integer that fits 64 bits is a normal
    number. *)
Lemma of_int_finite (n : Z) :
  0 < n < 2 ^ 64 ->
  exists (m : positive) (e : Z),
    Float64.of_int n = S754_finite false m e /\
    Zpos (digits2_pos m) = 53 /\ -52 <= e <= 12.
Proof.
  intros Hn. pose proof (Float64Facts.Zdigits2_bounds n _ ltac:(lia) eq_refl) as Hb.
  set (d := Zdigits2 n) in *.
  assert (Hd : 1 <= d <= 64).
  { split.
    - destruct n; subst d; cbn [Zdigits2]; lia.
    - destruct (Z_lt_le_dec 64 d); [| lia].
      assert (2 ^ 64 <= 2 ^ (d - 1)) by (apply Z.pow_le_mono_r; lia). lia. }
  destruct (Z_le_gt_dec d 53) as [Hle | Hgt].
  - destruct (Float64Facts.of_int_pos n d ltac:(lia) eq_refl Hle) as (m & Hf & _ & Hm).
    exists m, (d - 53). split; [exact Hf |]. split; [exact Hm | lia].
  - destruct n as [| p | p]; try lia. cbn [Zdigits2] in d.
    unfold Float64.of_int, binary_normalize, binary_round, fexp, emin.
    fold d. replace (Z.max (d + 0 - 53) (3 - 1024 - 53)) with (d - 53) by lia.
    unfold shl_align. destruct (d - 53 - 0) as [| k | k] eqn:Ek; try lia.
    destruct (Float64Facts.binary_round_aux_bracket (Zpos p) 0 loc_Exact d
                ltac:(lia) eq_refl ltac:(lia) ltac:(lia) ltac:(lia))
      as (m & e & Hf & Hm & He & _).
    exists m, e. split; [exact Hf |]. split; [| lia].
    apply Float64Facts.digits2_pos_unique. exact Hm.
Qed.

(** A negative float converts to at most zero. *)
Lemma to_int_negative (m : positive) (e : Z) :
  Float64.to_int (S754_finite true m e) <= 0.
Proof.
  unfold Float64.to_int, Float64.trunc.
  set (t := if 0 <=? e then Zpos m * 2 ^ e else Zpos m / 2 ^ (- e)).
  assert (Ht : 0 <= t).
  { unfold t. destruct (0 <=? e) eqn:He.
    - apply Z.leb_le in He. apply Z.mul_nonneg_nonneg; [lia |].
      apply Z.pow_nonneg. lia.
    - apply Z.div_pos; [lia |]. apply Z.pow_pos_nonneg; [lia |].
      apply Z.leb_gt in He. lia. }
  destruct (Int64.in_range (- t)); [lia |]. unfold Int64.min_int. lia.
Qed.

End Float64Sign.

(** ** More on the quota translation *)

Module BandwidthMore.
Import Bandwidth.

(** The percentage of a negative use is at most zero. *)
Lemma percentOf_negative (u a : Z) :
  Int64.min_int <= u < 0 -> 0 <= a < 2 ^ 26 -> percentOf u a <= 0.
Proof.
  unfold Int64.min_int. intros Hu Ha. destruct u as [| p | p]; try lia.
  destruct (Float64Sign.of_int_finite (Zpos p) ltac:(lia)) as (m1 & e1 & Hf1 & Hd1 & He1).
  unfold percentOf. rewrite Float64Sign.of_int_neg, Hf1. cbn [Float64.with_sign].
  destruct (Z.eq_dec a 0) as [-> | Hne].
  - vm_compute. discriminate.
  - pose proof (Float64Facts.Zdigits2_small a ltac:(lia) ltac:(lia)) as Hda.
    destruct (Float64Facts.of_int_pos a _ ltac:(lia) eq_refl ltac:(lia))
      as (m2 & Hf2 & _ & Hd2).
    rewrite Hf2. unfold Float64.div. rewrite Float64Sign.SFdiv_sign.
    destruct (Float64Facts.SFdiv_bracket m1 m2 e1 (Zdigits2 a - 53) Hd1 Hd2 ltac:(lia))
      as (mq & eQ & -> & Hdq & HeQ & _).
    cbn [xorb Float64.with_sign].
    change (Float64.of_int 100) with (S754_finite false 7036874417766400 (-46)).
    unfold Float64.mul. rewrite Float64Sign.SFmul_sign.
    destruct (Float64Facts.SFmul_bracket 7036874417766400 mq (-46) eQ eq_refl Hdq
                ltac:(lia)) as (mp & ep & -> & _).
    cbn [xorb Float64.with_sign]. apply Float64Sign.to_int_negative.
Qed.

Lemma bandwidthUpdates_length (updates : list (option Quota)) :
  (length (bandwidthUpdates updates) <= length updates)%nat.
Proof.
  induction updates as [| q l IH]; cbn [bandwidthUpdates length]; [lia |].
  destruct (quotaSignal q); cbn [length]; lia.
Qed.

(** X1. The loop works sample by sample: on batches of samples received
    one after the other it makes the calls it makes on each batch, in the
    order of the batches, and never more calls than there are samples. *)
Theorem bandwidthUpdates_batches (batches : list (list (option Quota))) :
  bandwidthUpdates (concat batches) = concat (map bandwidthUpdates batches) /\
  (length (bandwidthUpdates (concat batches)) <= length (concat batches))%nat.
Proof.
  split; [| apply bandwidthUpdates_length].
  induction batches as [| b bs IH]; cbn [concat map]; [reflexivity |].
  rewrite BandwidthSpec.bandwidthUpdates_app, IH. reflexivity.
Qed.

(** X2. For a sample that is kept and whose use is not negative, the
    host is told 100 percent exactly when the use has reached the
    allowance, and a remainder of zero exactly then too. *)
Theorem quotaSignal_full_iff_exhausted (quota : Quota) (percent remaining : Z) :
  0 <= MiBUsed quota ->
  quotaSignal (Some quota) = Some (BandwidthUpdate percent remaining) ->
  (percent = 100 <-> MiBUsed quota >= MiBAllowed quota) /\
  (remaining = 0 <-> MiBUsed quota >= MiBAllowed quota).
Proof.
  intros Hused Hsig.
  assert (Hall : 0 <= MiBAllowed quota <= 50000000).
  { unfold quotaSignal in Hsig.
    destruct (Z.ltb_spec (MiBAllowed quota) 0); [discriminate |].
    rewrite Z.gtb_ltb in Hsig.
    destruct (Z.ltb_spec 50000000 (MiBAllowed quota)); [discriminate | lia]. }
  rewrite (BandwidthSpec.quotaSignal_kept quota Hall) in Hsig.
  destruct (Z.geb_spec (MiBUsed quota) (MiBAllowed quota)) as [Hge | Hlt].
  - injection Hsig as <- <-. split; split; intros; (reflexivity || lia).
  - injection Hsig as <- <-.
    destruct (BandwidthSpec.percentOf_floor (MiBUsed quota) (MiBAllowed quota)
                ltac:(lia) ltac:(lia)) as (_ & [_ Hp] & _).
    assert (100 * MiBUsed quota / MiBAllowed quota < 100)
      by (apply Z.div_lt_upper_bound; lia).
    unfold Int64.sub. rewrite Int64Facts.wrap_id
      by (unfold Int64.min_int, Int64.max_int; lia).
    split; split; intros; lia.
Qed.

(** The sample [{MiBAllowed: 200, MiBUsed: 199}], sent as (99, 1). *)
Lemma quotaSignal_full_iff_exhausted_witness :
  (99 = 100 <-> 199 >= 200) /\ (1 = 0 <-> 199 >= 200).
Proof.
  apply (quotaSignal_full_iff_exhausted {| MiBAllowed := 200; MiBUsed := 199 |} 99 1).
  - cbn. lia.
  - vm_compute. reflexivity.
Defined.

(** X3. A sample with an allowance in range and a negative use is kept,
    and the host is never told a positive percentage for it; when the use
    is above -2^62 the remainder is the allowance minus the use, which is
    more than the allowance. *)
Theorem quotaSignal_negative_use (quota : Quota) :
  0 <= MiBAllowed quota <= 50000000 ->
  Int64.min_int <= MiBUsed quota < 0 ->
  exists percent remaining : Z,
    quotaSignal (Some quota) = Some (BandwidthUpdate percent remaining) /\
    percent <= 0 /\
    (- 2 ^ 62 <= MiBUsed quota ->
     remaining = MiBAllowed quota - MiBUsed quota /\
     MiBAllowed quota < remaining).
Proof.
  intros Hall Hused. rewrite (BandwidthSpec.quotaSignal_kept quota Hall).
  destruct (Z.geb_spec (MiBUsed quota) (MiBAllowed quota)) as [Hge | Hlt]; [lia |].
  eexists _, _. split; [reflexivity |]. split.
  - apply percentOf_negative; lia.
  - intros Hlow. unfold Int64.sub. rewrite Int64Facts.wrap_id
      by (unfold Int64.min_int, Int64.max_int; lia).
    lia.
Qed.

(** The sample [{MiBAllowed: 3, MiBUsed: -1}], sent as (-33, 4). *)
Lemma quotaSignal_negative_use_witness :
  exists percent remaining : Z,
    quotaSignal (Some {| MiBAllowed := 3; MiBUsed := -1 |})
      = Some (BandwidthUpdate percent remaining) /\
    percent <= 0 /\ remaining = 4.
Proof.
  destruct (quotaSignal_negative_use {| MiBAllowed := 3; MiBUsed := -1 |})
    as (p & r & Hs & Hp & Hr).
  - cbn. lia.
  - cbn. unfold Int64.min_int. lia.
  - exists p, r. split; [exact Hs |]. split; [exact Hp |].
    destruct Hr as [Hr _]; [cbn; lia | exact Hr].
Defined.

End BandwidthMore.

(** ** More on the survey resolution *)

Module SurveyMore.
Import Go Survey.

(** *** The normalization of the locale *)

Lemma Replace_idempotent (s : string) (old new : ascii) :
  old <> new -> Replace (Replace s old new) old new = Replace s old new.
Proof.
  intros Hne. induction s as [| c s IH]; cbn [Replace]; [reflexivity |].
  rewrite IH. f_equal.
  destruct (Ascii.eqb_spec c old) as [-> | Hc].
  - destruct (Ascii.eqb_spec new old); congruence.
  - destruct (Ascii.eqb_spec c old); congruence.
Qed.

Lemma Replace_get (s : string) (old new : ascii) (i : nat) :
  String.get i (Replace s old new)
    = match String.get i s with
      | Some c => Some (if Ascii.eqb c old then new else c)
      | None => None
      end.
Proof.
  revert i. induction s as [| c s IH]; intros i; cbn [Replace String.get].
  - reflexivity.
  - destruct i as [| i]; [reflexivity | apply IH].
Qed.

(** X4. The normalization of a locale keeps its length, turns every
    underscore into a hyphen and leaves every other byte as it is, so no
    underscore is left; normalizing twice is normalizing once. *)
Theorem Replace_underscores (s : string) :
  String.length (Replace s "_" "-") = String.length s /\
  (forall i : nat,
      String.get i (Replace s "_" "-")
        = match String.get i s with
          | Some c => Some (if Ascii.eqb c "_" then "-"%char else c)
          | None => None
          end) /\
  (forall i : nat, String.get i (Replace s "_" "-") <> Some "_"%char) /\
  Replace (Replace s "_" "-") "_" "-" = Replace s "_" "-".
Proof.
  split; [| split; [| split]].
  - induction s as [| c s IH]; cbn [Replace String.length]; congruence.
  - intros i. apply Replace_get.
  - intros i. rewrite Replace_get. destruct (String.get i s) as [c |]; [| discriminate].
    destruct (Ascii.eqb_spec c "_"); [discriminate | congruence].
  - apply Replace_idempotent. discriminate.
Qed.

Section Decoder.

Variable unmarshalSurveyInfo : RawMessage -> error + SurveyInfo.
Variable unmarshalRawMap : RawMessage -> error + RawMap.

Abbreviation extractUrl := (extractUrl unmarshalSurveyInfo).
Abbreviation surveyRequest := (surveyRequest unmarshalSurveyInfo unmarshalRawMap).
Abbreviation afterStart := (afterStart unmarshalSurveyInfo unmarshalRawMap).
Abbreviation extractUrl_eq := (SurveySpec.extractUrl_eq unmarshalSurveyInfo).

(** What a resolution returns is decided by one entry: the one of the
    locale, or the one of en-US when the locale has none. *)
Lemma extractUrl_settles (surveys : RawMap) (locale : string) :
  exists key : string,
    (key = locale \/
     surveys !! locale = None /\ locale <> defaultLocale /\ key = defaultLocale) /\
    fst (extractUrl surveys locale) =
      match surveys !! key with
      | Some (Some val) =>
          match unmarshalSurveyInfo val with
          | inl err => Returned (EmptyString, Some err)
          | inr survey => Returned (Url survey, None)
          end
      | Some None => Panicked
      | None => Returned (EmptyString, None)
      end.
Proof.
  assert (Hhere : forall l, surveys !! l <> None \/ l = defaultLocale ->
            fst (extractUrl surveys l) =
              match surveys !! l with
              | Some (Some val) =>
                  match unmarshalSurveyInfo val with
                  | inl err => Returned (EmptyString, Some err)
                  | inr survey => Returned (Url survey, None)
                  end
              | Some None => Panicked
              | None => Returned (EmptyString, None)
              end).
  { intros l Hl. rewrite extractUrl_eq.
    destruct (surveys !! l) as [[val |] |].
    - destruct (unmarshalSurveyInfo val); reflexivity.
    - reflexivity.
    - destruct (decide (l = defaultLocale)); [reflexivity |].
      destruct Hl; congruence. }
  destruct (surveys !! locale) as [o |] eqn:Hl.
  - exists locale. split; [auto |]. rewrite Hhere, Hl by (left; congruence). reflexivity.
  - destruct (decide (locale = defaultLocale)) as [Heq | Hne].
    + exists locale. split; [auto |]. rewrite Hhere, Hl by auto. reflexivity.
    + exists defaultLocale. split; [auto |].
      rewrite (SurveySpec.extractUrl_missing _ _ _ Hl Hne). cbn [fst].
      apply Hhere. auto.
Qed.

(** Where a url that [surveyRequest] returns comes from. *)
Lemma surveyRequest_source (fetched : Fetched) (locale url : string)
    (err : option error) :
  fst (surveyRequest fetched locale) = Returned (url, err) ->
  url <> EmptyString ->
  err = None /\
  exists (contents : RawMessage) (surveyResp : RawMap) (val : RawMessage)
         (surveys : RawMap) (key : string) (entry : RawMessage)
         (survey : SurveyInfo),
    fetched = Body contents /\
    unmarshalRawMap contents = inr surveyResp /\
    surveyResp !! "survey"%string = Some (Some val) /\
    unmarshalRawMap val = inr surveys /\
    (key = Replace locale "_" "-" \/ key = "en-US"%string) /\
    surveys !! key = Some (Some entry) /\
    unmarshalSurveyInfo entry = inr survey /\
    Url survey = url.
Proof.
  unfold Survey.surveyRequest.
  destruct fetched as [e | e | e | contents]; cbn [fst];
    try (intros [= <- _] Hne; congruence).
  destruct (unmarshalRawMap contents) as [e | surveyResp] eqn:Hdoc; cbn [fst];
    [intros [= <- _] Hne; congruence |].
  destruct (surveyResp !! "survey"%string) as [[val |] |] eqn:Hkey; cbn [fst];
    try (intros [= <- _] Hne; congruence).
  destruct (unmarshalRawMap val) as [e | surveys] eqn:Hin; cbn [fst];
    [intros [= <- _] Hne; congruence |].
  intros Hres Hne.
  destruct (extractUrl_settles surveys (Replace locale "_" "-")) as (key & Hk & Hs).
  rewrite Hs in Hres.
  destruct (surveys !! key) as [[entry |] |] eqn:Hentry;
    [| discriminate | injection Hres as <- _; congruence].
  destruct (unmarshalSurveyInfo entry) as [e | survey] eqn:Hsurvey;
    [injection Hres as <- _; congruence |].
  injection Hres as <- <-. split; [reflexivity |].
  exists contents, surveyResp, val, surveys, key, entry, survey.
  repeat split; try assumption.
  destruct Hk as [-> | (_ & _ & ->)]; auto.
Qed.

(** X5. A locale written with underscores and the same locale written
    with hyphens get the same answer from [surveyRequest]. *)
Theorem surveyRequest_normalizes (fetched : Fetched) (locale : string) :
  surveyRequest fetched (Replace locale "_" "-") = surveyRequest fetched locale.
Proof.
  unfold Survey.surveyRequest.
  rewrite Replace_idempotent by discriminate. reflexivity.
Qed.

(** X6. A resolution looks at two entries of the map at most, the one of
    the locale and the one of en-US: on two maps that agree there it gives
    the same result and does the same. *)
Theorem extractUrl_local (surveys surveys' : RawMap) (locale : string) :
  surveys !! locale = surveys' !! locale ->
  surveys !! "en-US"%string = surveys' !! "en-US"%string ->
  extractUrl surveys locale = extractUrl surveys' locale.
Proof.
  intros Hl Hd.
  assert (Hdef : extractUrl surveys defaultLocale = extractUrl surveys' defaultLocale).
  { rewrite (extractUrl_eq surveys), (extractUrl_eq surveys').
    unfold defaultLocale in *. rewrite Hd. reflexivity. }
  rewrite (extractUrl_eq surveys locale), (extractUrl_eq surveys' locale).
  rewrite Hl, Hdef. reflexivity.
Qed.

(** X7. A resolution panics exactly when the entry it settles on is a nil
    pointer: the entry of the locale, or the entry of en-US when the
    locale, other than en-US, has none. *)
Theorem extractUrl_panics_iff (surveys : RawMap) (locale : string) :
  fst (extractUrl surveys locale) = Panicked <->
  surveys !! locale = Some None \/
  surveys !! locale = None /\ locale <> "en-US"%string /\
  surveys !! "en-US"%string = Some None.
Proof.
  assert (Hdef : fst (extractUrl surveys defaultLocale) = Panicked <->
                 surveys !! defaultLocale = Some None).
  { rewrite extractUrl_eq.
    destruct (surveys !! defaultLocale) as [[val |] |].
    - destruct (unmarshalSurveyInfo val); split; discriminate.
    - tauto.
    - destruct (decide (defaultLocale = defaultLocale)); [| congruence].
      split; discriminate. }
  rewrite extractUrl_eq. change "en-US"%string with defaultLocale.
  destruct (surveys !! locale) as [[val |] |] eqn:Hl.
  - destruct (unmarshalSurveyInfo val); split;
      [discriminate | intros [H | (H & _)]; discriminate
      | discriminate | intros [H | (H & _)]; discriminate].
  - split; auto.
  - destruct (decide (locale = defaultLocale)) as [Heq | Hne]; cbn [fst].
    + split; [discriminate |]. intros [H | (_ & H & _)]; [discriminate | contradiction].
    + rewrite Hdef. split; [auto |]. intros [H | (_ & _ & H)]; [discriminate | exact H].
Qed.

(** X8. Whenever [surveyRequest] returns an error, the url it returns with
    it is empty. *)
Theorem surveyRequest_error_no_url (fetched : Fetched) (locale url : string)
    (err : error) :
  fst (surveyRequest fetched locale) = Returned (url, Some err) ->
  url = EmptyString.
Proof.
  intros Hres. destruct (decide (url = EmptyString)) as [Heq | Hne]; [exact Heq |].
  destruct (surveyRequest_source _ _ _ _ Hres Hne) as [Hnil _]. discriminate.
Qed.

(** X9. A url that [surveyRequest] returns, when not empty, comes with no
    error and is the url of an entry of the fetched document that
    decoded: the entry, in the map under "survey", of the normalized
    locale or of en-US. *)
Theorem surveyRequest_url_source (fetched : Fetched) (locale url : string)
    (err : option error) :
  fst (surveyRequest fetched locale) = Returned (url, err) ->
  url <> EmptyString ->
  err = None /\
  exists (contents : RawMessage) (surveyResp : RawMap) (val : RawMessage)
         (surveys : RawMap) (key : string) (entry : RawMessage)
         (survey : SurveyInfo),
    fetched = Body contents /\
    unmarshalRawMap contents = inr surveyResp /\
    surveyResp !! "survey"%string = Some (Some val) /\
    unmarshalRawMap val = inr surveys /\
    (key = Replace locale "_" "-" \/ key = "en-US"%string) /\
    surveys !! key = Some (Some entry) /\
    unmarshalSurveyInfo entry = inr survey /\
    Url survey = url.
Proof. apply surveyRequest_source. Qed.

(** X11. [afterStart] shows a survey only at a url that is not empty and
    that an entry of the fetched document decoded to; after a failed
    fetch, a document or a map of locales that does not decode, a missing
    "survey" key or an entry that does not decode, it shows none. *)
Theorem afterStart_shows_decoded (fetched : Fetched) (locale url : string) :
  In (CallShowSurvey url) (snd (afterStart fetched locale)) ->
  url <> EmptyString /\
  exists (contents : RawMessage) (surveyResp : RawMap) (val : RawMessage)
         (surveys : RawMap) (key : string) (entry : RawMessage)
         (survey : SurveyInfo),
    fetched = Body contents /\
    unmarshalRawMap contents = inr surveyResp /\
    surveyResp !! "survey"%string = Some (Some val) /\
    unmarshalRawMap val = inr surveys /\
    (key = Replace locale "_" "-" \/ key = "en-US"%string) /\
    surveys !! key = Some (Some entry) /\
    unmarshalSurveyInfo entry = inr survey /\
    Url survey = url.
Proof.
  unfold Survey.afterStart.
  destruct (fst (surveyRequest fetched locale)) as [[u [e |]] |] eqn:Hres;
    cbn [snd In]; try (intros [H | [H | []]]; discriminate).
  destruct (decide (u = EmptyString)) as [-> | Hne]; cbn [snd In];
    [intros [H | [H | []]]; discriminate |].
  intros [H | [H | [[= <-] | []]]]; try discriminate.
  split; [exact Hne |]. apply (surveyRequest_source _ _ _ _ Hres Hne).
Qed.

End Decoder.

(** X10. A resolution uses a decoded entry for its url only: with two
    decoders that fail on the same messages with the same errors and
    give surveys with the same url, whatever their other fields (the
    [Enabled] flag among them), it gives the same result and does the
    same. *)
Theorem extractUrl_url_only (decode decode' : RawMessage -> error + SurveyInfo)
    (surveys : RawMap) (locale : string) :
  (forall val : RawMessage,
      sum_map id Url (decode val) = sum_map id Url (decode' val)) ->
  Survey.extractUrl decode surveys locale = Survey.extractUrl decode' surveys locale.
Proof.
  intros Hsame.
  assert (Hhere : forall l rest rest',
            rest = rest' ->
            match surveys !! l with
            | Some (Some val) =>
                match decode val with
                | inl err =>
                    (Returned (EmptyString, Some err),
                     [MapLookup l; Logged (ErrParsingSurvey err)])
                | inr survey =>
                    (Returned (Url survey, None),
                     [MapLookup l; Logged (DbgFoundSurvey l (Url survey))])
                end
            | Some None => (Panicked, [MapLookup l])
            | None => rest
            end =
            match surveys !! l with
            | Some (Some val) =>
                match decode' val with
                | inl err =>
                    (Returned (EmptyString, Some err),
                     [MapLookup l; Logged (ErrParsingSurvey err)])
                | inr survey =>
                    (Returned (Url survey, None),
                     [MapLookup l; Logged (DbgFoundSurvey l (Url survey))])
                end
            | Some None => (Panicked, [MapLookup l])
            | None => rest'
            end :> Resolution).
  { intros l rest rest' ->. destruct (surveys !! l) as [[val |] |]; try reflexivity.
    specialize (Hsame val).
    destruct (decode val), (decode' val); cbn in Hsame; congruence. }
  assert (Hdef : Survey.extractUrl decode surveys defaultLocale
                 = Survey.extractUrl decode' surveys defaultLocale).
  { rewrite (SurveySpec.extractUrl_eq decode surveys defaultLocale),
      (SurveySpec.extractUrl_eq decode' surveys defaultLocale).
    apply Hhere.
    destruct (decide (defaultLocale = defaultLocale)); [reflexivity | congruence]. }
  rewrite (SurveySpec.extractUrl_eq decode surveys locale),
    (SurveySpec.extractUrl_eq decode' surveys locale).
  apply Hhere. rewrite Hdef. reflexivity.
Qed.

(** The theorems on given documents. *)

(** Two maps that differ at fr-FR only, asked for de-DE. *)
Lemma extractUrl_local_witness :
  Survey.extractUrl SurveyExamples.unmarshalSurveyInfo
    {[ "en-US"%string := Some "https://example.org/s"%string ]} "de-DE"
  = Survey.extractUrl SurveyExamples.unmarshalSurveyInfo
      {[ "en-US"%string := Some "https://example.org/s"%string;
         "fr-FR"%string := Some "https://example.org/fr"%string ]} "de-DE".
Proof.
  apply extractUrl_local; vm_compute; reflexivity.
Defined.

(** A failed transport. *)
Lemma surveyRequest_error_no_url_witness : EmptyString = EmptyString :> string.
Proof.
  apply (surveyRequest_error_no_url SurveyExamples.unmarshalSurveyInfo
           SurveyExamples.unmarshalRawMap
           (DoFailed "connection refused") "en_US" EmptyString "connection refused").
  reflexivity.
Defined.

(** The document of [SurveyExamples], asked for de_DE. *)
Lemma surveyRequest_url_source_witness :
  exists (key : string) (survey : SurveyInfo),
    (key = "de-DE"%string \/ key = "en-US"%string) /\
    Url survey = "https://example.org/s"%string.
Proof.
  destruct (surveyRequest_url_source SurveyExamples.unmarshalSurveyInfo
              SurveyExamples.unmarshalDocument (Body "document") "de_DE"
              "https://example.org/s" None)
    as (_ & _ & _ & _ & _ & key & _ & survey & _ & _ & _ & _ & Hk & _ & _ & Hu).
  - vm_compute. reflexivity.
  - discriminate.
  - exists key, survey. auto.
Defined.

(** The same document, through [afterStart]. *)
Lemma afterStart_shows_decoded_witness :
  "https://example.org/s"%string <> EmptyString.
Proof.
  apply (afterStart_shows_decoded SurveyExamples.unmarshalSurveyInfo
           SurveyExamples.unmarshalDocument (Body "document") "de_DE"
           "https://example.org/s").
  vm_compute. auto.
Defined.

(** A decoder that gives the surveys of [SurveyExamples] as disabled. *)
Lemma extractUrl_url_only_witness :
  Survey.extractUrl SurveyExamples.unmarshalSurveyInfo
    {[ "en-US"%string := Some "https://example.org/s"%string ]} "de-DE"
  = Survey.extractUrl
      (fun val =>
         match SurveyExamples.unmarshalSurveyInfo val with
         | inl err => inl err
         | inr survey =>
             inr {| Enabled := false; Campaign := Campaign survey;
                    Url := Url survey; Message := Message survey;
                    Thanks := Thanks survey; Button := Button survey |}
         end)
      {[ "en-US"%string := Some "https://example.org/s"%string ]} "de-DE".
Proof.
  apply extractUrl_url_only. intros val.
  destruct (SurveyExamples.unmarshalSurveyInfo val); reflexivity.
Defined.

End SurveyMore.

(** ** More on the startup coordination *)

Module StartupMore.
Import Go Effects Startup.

(** X12. A run of [Start] panics exactly when both waits succeeded and one
    of the two values is not a string; when it returns, it returns a
    result or an error, never both and never neither. *)
Theorem Start_outcomes (configDir locale : string) (timeoutMillis : Z)
    (tr : list (call StartCall))
    (r : outcome (option StartResult * option error)) :
  runs (Start configDir locale timeoutMillis) tr r ->
  (r = Panicked <->
   exists (d1 d2 : Z) (a s : iface),
     waits tr = [HTTPWait d1 a true; SOCKSWait d2 s true] /\
     (a = OtherValue \/ s = OtherValue)) /\
  (forall (result : option StartResult) (err : option error),
      r = Returned (result, err) -> (result = None <-> err <> None)).
Proof.
  intros H.
  destruct (StartupSpec.Start_runs _ _ _ _ _ H) as (start & addr & ok & rest & -> & Hrest).
  destruct ok.
  - destruct Hrest as (now & socksAddr & ok' & -> & ->).
    cbn [waits omap list_omap waitOf fst snd]. split.
    + split.
      * intros Hp. do 2 eexists. exists addr, socksAddr.
        destruct ok'; [| discriminate]. split; [reflexivity |].
        destruct addr, socksAddr; try discriminate; auto.
      * intros (d1 & d2 & a & s & Hw & Hor).
        injection Hw as _ Ha _ Hs Hok. subst a s ok'.
        destruct Hor as [-> | ->]; [reflexivity |]. destruct addr; reflexivity.
    + intros result err. destruct ok'.
      * destruct addr, socksAddr; try discriminate.
        intros [= <- <-]. split; [discriminate | congruence].
      * intros [= <- <-]. split; [discriminate | reflexivity].
  - destruct Hrest as [-> ->]. cbn [waits omap list_omap waitOf fst snd]. split.
    + split; [discriminate |]. intros (d1 & d2 & a & s & Hw & _). discriminate.
    + intros result err [= <- <-]. split; [discriminate | reflexivity].
Qed.

(** A run in which the HTTP address is not a string. *)
Lemma Start_outcomes_witness :
  exists (d1 d2 : Z) (a s : iface),
    waits [Called (SetHomeDir "/data/lantern") tt;
           Called (StartOnceGoRun "/data/lantern" "en_US") tt;
           Called TimeNow 0;
           Called (ClientAddr 1000000000) (OtherValue, true);
           Called TimeNow 250000000;
           Called (ClientSocks5Addr 750000000)
             (StringValue "127.0.0.1:1080", true)]
    = [HTTPWait d1 a true; SOCKSWait d2 s true] /\
    (a = OtherValue \/ s = OtherValue).
Proof.
  assert (Hrun : runs (Start "/data/lantern" "en_US" 1000)
            [Called (SetHomeDir "/data/lantern") tt;
             Called (StartOnceGoRun "/data/lantern" "en_US") tt;
             Called TimeNow 0;
             Called (ClientAddr 1000000000) (OtherValue, true);
             Called TimeNow 250000000;
             Called (ClientSocks5Addr 750000000)
               (StringValue "127.0.0.1:1080", true)]
            Panicked)
    by (unfold Start; StartupSpec.prove_run).
  destruct (Start_outcomes _ _ _ _ _ Hrun) as [Hp _].
  apply Hp. reflexivity.
Defined.

(** Against the collaborators of a process, the process a program leaves
    behind is the one its calls make, one after the other. *)
Lemma exec_inProcess {W R : Type} (engine : Engine W)
    (p : prog StartCall R) (s : Process * W) :
  fst (snd (fst (exec (inProcess engine) p s)))
    = fold_left onProcess (snd (exec (inProcess engine) p s)) (fst s).
Proof.
  revert s. induction p as [r | X e k IH]; intros [q w]; cbn [exec]; [reflexivity |].
  destruct e; cbn [inProcess fst snd].
  - specialize (IH tt (q, w)).
    destruct (exec (inProcess engine) (k tt) (q, w)) as [[r s'] tr]. exact IH.
  - specialize (IH tt (onceGoRun configDir locale q, w)).
    destruct (exec (inProcess engine) (k tt) _) as [[r s'] tr]. exact IH.
  - destruct (engineNow engine w) as [t w']. specialize (IH t (q, w')).
    destruct (exec (inProcess engine) (k t) _) as [[r s'] tr]. exact IH.
  - destruct (engineAddr engine timeout w) as [a w']. specialize (IH a (q, w')).
    destruct (exec (inProcess engine) (k a) _) as [[r s'] tr]. exact IH.
  - destruct (engineSocks5Addr engine timeout w) as [a w']. specialize (IH a (q, w')).
    destruct (exec (inProcess engine) (k a) _) as [[r s'] tr]. exact IH.
Qed.

(** What a call to [Start] does to the process, whatever the engine
    answers and however the call ends. *)
Lemma Start_in_process {W : Type} (engine : Engine W)
    (configDir locale : string) (timeoutMillis : Z) (p : Process) (w : W) :
  fst (snd (fst (exec (inProcess engine)
                   (Start configDir locale timeoutMillis) (p, w))))
    = onceGoRun configDir locale p.
Proof.
  rewrite exec_inProcess.
  pose proof (StartupSpec.exec_runs (inProcess engine)
                (Start configDir locale timeoutMillis) (p, w)) as Hrun.
  destruct (StartupSpec.Start_runs _ _ _ _ _ Hrun)
    as (start & addr & ok & rest & -> & Hrest).
  destruct ok.
  - destruct Hrest as (now & socksAddr & ok' & -> & _). reflexivity.
  - destruct Hrest as [-> _]. reflexivity.
Qed.

Lemma StartAll_done {W : Type} (engine : Engine W)
    (calls : list (string * string * Z)) (s : Process * W) :
  onceDone (fst s) = true ->
  fst (StartAll engine calls s) = fst s.
Proof.
  revert s. induction calls as [| [[c l] t] rest IH]; intros [p w] Hdone;
    cbn [StartAll]; [reflexivity |].
  cbn [fst] in Hdone.
  pose proof (Start_in_process engine c l t p w) as Hp.
  destruct (exec (inProcess engine) (Start c l t) (p, w)) as [[r [p' w']] tr].
  cbn [fst snd] in Hp. subst p'. rewrite IH; cbn [fst].
  - unfold onceGoRun. rewrite Hdone. reflexivity.
  - unfold onceGoRun. rewrite Hdone. exact Hdone.
Qed.

(** X13. However many times [Start] is called in a process, one call
    after the other, and whatever the engine answers, [run] is launched
    once, with the directory and the locale of the first call: those of
    the later calls never reach it. *)
Theorem StartAll_launches_once {W : Type} (engine : Engine W)
    (configDir locale : string) (timeoutMillis : Z)
    (later : list (string * string * Z)) (w : W) :
  launched (fst (StartAll engine ((configDir, locale, timeoutMillis) :: later)
                   (fresh, w)))
    = [(configDir, locale)] /\
  onceDone (fst (StartAll engine ((configDir, locale, timeoutMillis) :: later)
                   (fresh, w)))
    = true.
Proof.
  cbn [StartAll].
  pose proof (Start_in_process engine configDir locale timeoutMillis fresh w) as Hp.
  destruct (exec (inProcess engine) (Start configDir locale timeoutMillis) (fresh, w))
    as [[r [p' w']] tr].
  cbn [fst snd] in Hp. subst p'. rewrite StartAll_done by reflexivity.
  split; reflexivity.
Qed.

(** The runs of [run], to their end. *)
Lemma run_runs_full (stagingMode configDir locale : string)
    (tr : list (call RunCall)) :
  runs (run stagingMode configDir locale) tr tt <->
  exists err : option PathError,
    if IsExist err then
      tr = [Called (MkdirAll configDir 493) err;
            Called (Log (ErrCreateConfigDir configDir err)) tt]
    else
      exists err' : option error,
        match err' with
        | Some e =>
            tr = [Called (MkdirAll configDir 493) err;
                  Called (EnableFileLogging configDir) (Some e);
                  Called (Log (ErrEnableFileLogging e)) tt]
        | None =>
            tr = [Called (MkdirAll configDir 493) err;
                  Called (EnableFileLogging configDir) None;
                  Called (Log (DbgWritingLog configDir)) tt]
                 ++ match ParseBool stagingMode with
                    | Some _ => []
                    | None => [Called (Log ErrParsingFlag) tt]
                    end
                 ++ [Called (FlashlightRun "127.0.0.1:0" "127.0.0.1:0" configDir
                               false locale) tt]
        end.
Proof.
  unfold run. cbn [runs]. split.
  - intros (err & rest & -> & H). exists err.
    destruct (IsExist err); cbn [runs] in H.
    + destruct H as ([] & tr1 & -> & -> & _). reflexivity.
    + destruct H as (err' & rest' & -> & H). exists err'.
      destruct err' as [e |]; cbn [runs] in H.
      * destruct H as ([] & tr1 & -> & -> & _). reflexivity.
      * destruct H as ([] & tr1 & -> & H).
        destruct (ParseBool stagingMode); cbn [runs] in H.
        -- destruct H as ([] & tr2 & -> & -> & _). reflexivity.
        -- destruct H as ([] & tr2 & -> & [] & tr3 & -> & -> & _). reflexivity.
  - intros (err & H). exists err. destruct (IsExist err).
    + subst tr. eexists. split; [reflexivity |]. cbn [runs].
      exists tt, []. auto.
    + destruct H as (err' & H). destruct err' as [e |]; subst tr.
      * eexists. split; [reflexivity |]. cbn [runs].
        exists (Some e). eexists. split; [reflexivity |]. cbn [runs].
        exists tt, []. auto.
      * eexists. split; [reflexivity |]. cbn [runs].
        exists None. eexists. split; [reflexivity |]. cbn [runs].
        exists tt. eexists. split; [reflexivity |].
        destruct (ParseBool stagingMode); cbn [runs app].
        -- exists tt, []. auto.
        -- exists tt. eexists. split; [reflexivity |]. cbn [runs].
           exists tt, []. auto.
Qed.

(** X14. [run] starts the engine once at most, as the last thing it
    does, on 127.0.0.1:0 for both listeners, with the directory and the
    locale it was given and a configuration that is not sticky; and it
    starts it exactly when the creation of the directory did not fail
    with an already-exists error and file logging was enabled. *)
Theorem run_engine_start (stagingMode configDir locale : string)
    (tr : list (call RunCall)) :
  runs (run stagingMode configDir locale) tr tt ->
  (engineStarts tr = [] \/
   engineStarts tr
     = [("127.0.0.1:0", "127.0.0.1:0", configDir, false, locale)%string] /\
   exists before : list (call RunCall),
     tr = before ++ [Called (FlashlightRun "127.0.0.1:0" "127.0.0.1:0" configDir
                               false locale) tt] /\
     engineStarts before = []) /\
  (engineStarts tr <> [] <->
   (exists err : option PathError,
       mkdirAnswers tr = [err] /\ IsExist err = false) /\
   fileLoggingAnswers tr = [None]).
Proof.
  intros H. apply run_runs_full in H. destruct H as (err & H).
  destruct (IsExist err) eqn:Hex.
  - subst tr. cbn. split; [auto |]. split; [congruence |].
    intros [(err0 & [= <-] & Hne) _]. congruence.
  - destruct H as ([e |] & ->).
    + cbn. split; [auto |]. split; [congruence |]. intros [_ [=]].
    + destruct (ParseBool stagingMode); cbn.
      * split.
        -- right. split; [reflexivity |]. eexists [_; _; _]. split; reflexivity.
        -- split; [| discriminate]. intros _. split; [eauto | reflexivity].
      * split.
        -- right. split; [reflexivity |]. eexists [_; _; _; _]. split; reflexivity.
        -- split; [| discriminate]. intros _. split; [eauto | reflexivity].
Qed.

(** The run after a creation that failed for lack of permission. *)
Lemma run_engine_start_witness :
  engineStarts
    [Called (MkdirAll "/data/lantern" 493)
       (Some {| Op := "mkdir"; Path := "/data/lantern"; Err := EACCES |});
     Called (EnableFileLogging "/data/lantern") None;
     Called (Log (DbgWritingLog "/data/lantern")) tt;
     Called (FlashlightRun "127.0.0.1:0" "127.0.0.1:0" "/data/lantern" false
               "en_US") tt]
  <> [] <->
  (exists err : option PathError,
      mkdirAnswers
        [Called (MkdirAll "/data/lantern" 493)
           (Some {| Op := "mkdir"; Path := "/data/lantern"; Err := EACCES |});
         Called (EnableFileLogging "/data/lantern") None;
         Called (Log (DbgWritingLog "/data/lantern")) tt;
         Called (FlashlightRun "127.0.0.1:0" "127.0.0.1:0" "/data/lantern" false
                   "en_US") tt]
      = [err] /\ IsExist err = false) /\
  fileLoggingAnswers
    [Called (MkdirAll "/data/lantern" 493)
       (Some {| Op := "mkdir"; Path := "/data/lantern"; Err := EACCES |});
     Called (EnableFileLogging "/data/lantern") None;
     Called (Log (DbgWritingLog "/data/lantern")) tt;
     Called (FlashlightRun "127.0.0.1:0" "127.0.0.1:0" "/data/lantern" false
               "en_US") tt]
  = [None].
Proof.
  assert (Hrun : runs (run "false" "/data/lantern" "en_US")
            [Called (MkdirAll "/data/lantern" 493)
               (Some {| Op := "mkdir"; Path := "/data/lantern"; Err := EACCES |});
             Called (EnableFileLogging "/data/lantern") None;
             Called (Log (DbgWritingLog "/data/lantern")) tt;
             Called (FlashlightRun "127.0.0.1:0" "127.0.0.1:0" "/data/lantern"
                       false "en_US") tt]
            tt)
    by (unfold run; StartupSpec.prove_run).
  exact (proj2 (run_engine_start _ _ _ _ Hrun)).
Defined.

(** X15. The staging flag changes nothing of what [run] does but one
    entry of the log: for every run under one value of [stagingMode] there
    is, under any other value, a run with the same answers of the file
    system and the same calls, the log entry about a flag that does not
    parse apart. *)
Theorem run_staging_flag (stagingMode stagingMode' configDir locale : string)
    (tr : list (call RunCall)) :
  runs (run stagingMode configDir locale) tr tt ->
  exists tr' : list (call RunCall),
    runs (run stagingMode' configDir locale) tr' tt /\
    List.filter notFlagLog tr' = List.filter notFlagLog tr.
Proof.
  intros H. apply run_runs_full in H. destruct H as (err & H).
  destruct (IsExist err) eqn:Hex.
  - exists tr. split; [| reflexivity]. apply run_runs_full.
    exists err. rewrite Hex. exact H.
  - destruct H as ([e |] & ->).
    + eexists. split; [| reflexivity]. apply run_runs_full.
      exists err. rewrite Hex. exists (Some e). reflexivity.
    + eexists. split.
      * apply run_runs_full. exists err. rewrite Hex. exists None. reflexivity.
      * destruct (ParseBool stagingMode), (ParseBool stagingMode'); reflexivity.
Qed.

(** A flag that does not parse against the flag of the package. *)
Lemma run_staging_flag_witness :
  exists tr' : list (call RunCall),
    runs (run "false" "/data/lantern" "en_US") tr' tt /\
    List.filter notFlagLog tr'
    = [Called (MkdirAll "/data/lantern" 493) None;
       Called (EnableFileLogging "/data/lantern") None;
       Called (Log (DbgWritingLog "/data/lantern")) tt;
       Called (FlashlightRun "127.0.0.1:0" "127.0.0.1:0" "/data/lantern" false
                 "en_US") tt].
Proof.
  assert (Hrun : runs (run "maybe" "/data/lantern" "en_US")
            [Called (MkdirAll "/data/lantern" 493) None;
             Called (EnableFileLogging "/data/lantern") None;
             Called (Log (DbgWritingLog "/data/lantern")) tt;
             Called (Log ErrParsingFlag) tt;
             Called (FlashlightRun "127.0.0.1:0" "127.0.0.1:0" "/data/lantern"
                       false "en_US") tt]
            tt)
    by (unfold run; StartupSpec.prove_run).
  exact (run_staging_flag "maybe" "false" _ _ _ Hrun).
Defined.

End StartupMore.
